(** * GYM-Manager: the Member entity and the roster store of [gym_main.py]

    A shallow embedding of the data layer of [src/gym_main.py]: the [Member]
    class, its JSON (de)serialisation, and the [GymController] operations,
    followed by the properties of the specification that concern them.

    Python objects are modelled by their JSON-shaped values, floats by the
    IEEE binary64 numbers of [PrimFloat], exceptions by an error monad, and
    the mutable controller by explicit state passing. *)

From Stdlib Require Import ZArith Floats Bool List String Ascii Lia.
From Stdlib Require Import DecimalString.
Import ListNotations.
Open Scope Z_scope.
Open Scope string_scope.
#[local] Set Warnings "-register-all".

(** ** Python values *)

(** The values [json.load] builds, which are also the values the attributes
    of a [Member] hold.  A [VDict] lists the items of a dict in insertion
    order. *)
Inductive value : Type :=
| VNone
| VBool (b : bool)
| VInt (z : Z)
| VFloat (f : float)
| VStr (s : string)
| VList (l : list value)
| VDict (d : list (string * value)).

(** The exceptions that the modelled code can raise.  [JSONDecodeError] and
    [IOError] never leave the controller; they appear as conditions of the
    file system below. *)
Inductive exn : Type :=
| KeyError (k : string)
| TypeError
| AttributeError
| OverflowError
| ZeroDivisionError
| DuplicateIdError (msg : string)
| MemberNotFoundError (msg : string).

Inductive result (A : Type) : Type :=
| Ok (a : A)
| Raise (e : exn).
Arguments Ok {A} a.
Arguments Raise {A} e.

Definition bind {A B : Type} (r : result A) (k : A -> result B) : result B :=
  match r with
  | Ok a => k a
  | Raise e => Raise e
  end.

Declare Scope py_scope.
Delimit Scope py_scope with py.
Notation "x <- c ;; k" := (bind c (fun x => k))
  (at level 61, c at next level, right associativity) : py_scope.
Open Scope py_scope.

Definition is_ok {A : Type} (r : result A) : bool :=
  match r with Ok _ => true | Raise _ => false end.

(** ** The numeric operations of the interpreter *)
Module Py.

(** Python numbers: [bool] is a subclass of [int]. *)
Inductive num : Type :=
| NInt (z : Z)
| NFloat (f : float).

Definition as_num (v : value) : option num :=
  match v with
  | VBool b => Some (NInt (Z.b2z b))
  | VInt z => Some (NInt z)
  | VFloat f => Some (NFloat f)
  | _ => None
  end.

(** [float(z)]: the nearest binary64 number, ties to even; an [int] beyond
    the range of binary64 raises [OverflowError]. *)
Definition float_of_int (z : Z) : result float :=
  let r := SF2Prim (binary_normalize prec emax z 0 false) in
  if is_infinity r then Raise OverflowError else Ok r.

(** [x ** 2] on floats, the C library's [pow(x, 2.0)] taken as the
    correctly rounded square: a finite [x] whose square is out of range
    raises [OverflowError], an underflow silently gives [0.0]. *)
Definition float_pow2 (x : float) : result float :=
  let r := (x * x)%float in
  if is_infinity r && negb (is_infinity x) then Raise OverflowError else Ok r.

(** [x / y] on floats: a zero divisor raises [ZeroDivisionError]; a quotient
    out of range is [inf], without error. *)
Definition float_div (x y : float) : result float :=
  if (y =? 0)%float then Raise ZeroDivisionError else Ok (x / y)%float.

(** [a / b] on ints: the exact quotient rounded once to binary64. *)
Definition int_spec (z : Z) : spec_float :=
  match z with
  | Z0 => S754_zero false
  | Zpos p => S754_finite false p 0
  | Zneg p => S754_finite true p 0
  end.

Definition int_div (a b : Z) : result float :=
  if (b =? 0)%Z then Raise ZeroDivisionError
  else
    let r := SF2Prim (SFdiv prec emax (int_spec a) (int_spec b)) in
    if is_infinity r then Raise OverflowError else Ok r.

(** [v ** 2] *)
Definition pow2 (v : value) : result num :=
  match as_num v with
  | Some (NInt z) => Ok (NInt (z * z))
  | Some (NFloat f) => r <- float_pow2 f ;; Ok (NFloat r)
  | None => Raise TypeError
  end.

(** [v / d], true division: always a float. *)
Definition truediv (v : value) (d : num) : result float :=
  match as_num v, d with
  | None, _ => Raise TypeError
  | Some (NInt a), NInt b => int_div a b
  | Some (NInt a), NFloat y => x <- float_of_int a ;; float_div x y
  | Some (NFloat x), NInt b => y <- float_of_int b ;; float_div x y
  | Some (NFloat x), NFloat y => float_div x y
  end.

(** The integer nearest to [n / d], ties to the even one ([d > 0]). *)
Definition rne_div (n d : Z) : Z :=
  let q := n / d in
  match 2 * (n mod d) ?= d with
  | Lt => q
  | Gt => q + 1
  | Eq => if Z.even q then q else q + 1
  end.

(** [round(x, 2)] on a float: the exact value of [x] is rounded to the
    nearest multiple of 1/100 (ties to even), and that decimal is converted
    back to the nearest binary64 number.  [nan], the infinities, the zeros
    and floats without a fractional part are returned as they are. *)
Definition round2 (x : float) : float :=
  match Prim2SF x with
  | S754_finite s m e =>
      if (0 <=? e)%Z then x
      else
        let n := rne_div (Zpos m * 100) (2 ^ (- e)) in
        let hundredths :=
          match n with
          | Zpos p => S754_finite s p 0
          | _ => S754_zero s
          end in
        SF2Prim (SFdiv prec emax hundredths (S754_finite false 100 0))
  | _ => x
  end.

End Py.

(** ** Dicts and the clock *)

Fixpoint assoc (k : string) (d : list (string * value)) : option value :=
  match d with
  | [] => None
  | (k', v) :: d' => if String.eqb k' k then Some v else assoc k d'
  end.

(** [data[k]]: only a dict can be subscripted by a string; a missing key
    raises [KeyError]. *)
Definition getitem (data : value) (k : string) : result value :=
  match data with
  | VDict d =>
      match assoc k d with
      | Some v => Ok v
      | None => Raise (KeyError k)
      end
  | _ => Raise TypeError
  end.

(** [data.get(k, default)] *)
Definition get (data : value) (k : string) (default : value) : result value :=
  match data with
  | VDict d =>
      match assoc k d with
      | Some v => Ok v
      | None => Ok default
      end
  | _ => Raise AttributeError
  end.

(** A reading of [datetime.now()], known by the two strings the program
    makes of it: [strftime("%Y-%m-%d")] and [strftime("%Y-%m-%d %H:%M:%S")]. *)
Record datetime : Type := {
  strftime_date : string;
  strftime_seconds : string
}.

(** ** class Member *)
Module Member.

Record t : Type := {
  id : value;
  name : value;
  age : value;
  gender : value;
  phone : value;
  weight : value;
  height : value;
  bmi : float;
  tier : value;
  join_date : value;
  attendance_log : value
}.

(** [round(self.weight / (self.height ** 2), 2)], with [0.0] when the
    division raises [ZeroDivisionError]; any other exception propagates. *)
Definition _calculate_bmi (weight height : value) : result float :=
  match (d <- Py.pow2 height ;;
         q <- Py.truediv weight d ;;
         Ok (Py.round2 q)) with
  | Raise ZeroDivisionError => Ok 0%float
  | r => r
  end.

Definition __init__ (now : datetime)
    (m_id name age gender phone weight height tier : value) : result t :=
  bmi <- _calculate_bmi weight height ;;
  Ok {| id := m_id; name := name; age := age; gender := gender;
        phone := phone; weight := weight; height := height; bmi := bmi;
        tier := tier; join_date := VStr (strftime_date now);
        attendance_log := VList [] |}.

(** [self.attendance_log.append(timestamp)]: only a list has [append]. *)
Definition mark_attendance (now : datetime) (self : t) : result t :=
  match attendance_log self with
  | VList l =>
      Ok {| id := id self; name := name self; age := age self;
            gender := gender self; phone := phone self;
            weight := weight self; height := height self; bmi := bmi self;
            tier := tier self; join_date := join_date self;
            attendance_log := VList (l ++ [VStr (strftime_seconds now)]) |}
  | _ => Raise AttributeError
  end.

(** [self.__dict__]: the attributes in the order [__init__] assigns them. *)
Definition to_dict (self : t) : value :=
  VDict [("id", id self); ("name", name self); ("age", age self);
         ("gender", gender self); ("phone", phone self);
         ("weight", weight self); ("height", height self);
         ("bmi", VFloat (bmi self)); ("tier", tier self);
         ("join_date", join_date self);
         ("attendance_log", attendance_log self)].

Definition from_dict (now : datetime) (data : value) : result t :=
  v_id <- getitem data "id" ;;
  v_name <- getitem data "name" ;;
  v_age <- getitem data "age" ;;
  v_gender <- getitem data "gender" ;;
  v_phone <- getitem data "phone" ;;
  v_weight <- getitem data "weight" ;;
  v_height <- getitem data "height" ;;
  v_tier <- getitem data "tier" ;;
  m <- __init__ now v_id v_name v_age v_gender v_phone v_weight v_height v_tier ;;
  jd <- get data "join_date" (join_date m) ;;
  al <- get data "attendance_log" (VList []) ;;
  Ok {| id := id m; name := name m; age := age m; gender := gender m;
        phone := phone m; weight := weight m; height := height m;
        bmi := bmi m; tier := tier m; join_date := jd;
        attendance_log := al |}.

End Member.

(** ** The members dict *)

(** Keys of a Python dict must be hashable; lists and dicts are not. *)
Definition hashable (v : value) : bool :=
  match v with
  | VList _ | VDict _ => false
  | _ => true
  end.

(** [f == z] for a float and an int: Python compares the exact values. *)
Definition float_eq_int (f : float) (z : Z) : bool :=
  match Prim2SF f with
  | S754_zero _ => (z =? 0)%Z
  | S754_finite s m e =>
      let v := if s then Z.neg m else Z.pos m in
      if (0 <=? e)%Z then (z =? v * 2 ^ e)%Z
      else (v mod 2 ^ (- e) =? 0)%Z && (z =? v / 2 ^ (- e))%Z
  | _ => false
  end.

Definition num_eqb (a b : Py.num) : bool :=
  match a, b with
  | Py.NInt x, Py.NInt y => (x =? y)%Z
  | Py.NFloat x, Py.NFloat y => (x =? y)%float
  | Py.NInt z, Py.NFloat f => float_eq_int f z
  | Py.NFloat f, Py.NInt z => float_eq_int f z
  end.

(** [a == b] between hashable values, as a dict compares a stored key with a
    looked-up one.  (A dict also matches a key with itself as an object; the
    program never looks up with the very object stored as key.) *)
Definition key_eqb (a b : value) : bool :=
  match a, b with
  | VNone, VNone => true
  | VStr s, VStr t => String.eqb s t
  | _, _ =>
      match Py.as_num a, Py.as_num b with
      | Some x, Some y => num_eqb x y
      | _, _ => false
      end
  end.

Section Dict.
Context {V : Type}.

(** [d.get(k)] *)
Fixpoint lookup (k : value) (d : list (value * V)) : option V :=
  match d with
  | [] => None
  | (k', v) :: d' => if key_eqb k' k then Some v else lookup k d'
  end.

(** [k in d] *)
Definition contains (k : value) (d : list (value * V)) : bool :=
  match lookup k d with Some _ => true | None => false end.

(** [d[k] = v]: an equal key keeps its place and its key object. *)
Fixpoint setitem (k : value) (v : V) (d : list (value * V))
    : list (value * V) :=
  match d with
  | [] => [(k, v)]
  | (k', v') :: d' =>
      if key_eqb k' k then (k', v) :: d' else (k', v') :: setitem k v d'
  end.

(** [del d[k]] *)
Fixpoint delitem (k : value) (d : list (value * V)) : list (value * V) :=
  match d with
  | [] => []
  | (k', v') :: d' =>
      if key_eqb k' k then d' else (k', v') :: delitem k d'
  end.
End Dict.

(** ** The file system and the console *)

(** The backing file as [_load_data] finds it: absent, present but failing
    to open or read ([IOError]), present with text that [json.load] rejects
    ([JSONDecodeError]), or present with a JSON text, known by the value
    [json.load] returns for it. *)
Inductive startup_file : Type :=
| Absent
| Unreadable
| Garbage
| Json (j : value).

(** The backing file during a run: as found, or holding the text that
    [json.dump(data, f, indent=4)] wrote, known by [data], or cut short by a
    write that failed after [open(DB_FILE, 'w')] had emptied the file. *)
Inductive disk : Type :=
| AsFound (f : startup_file)
| Dumped (data : list (value * value))
| Truncated.

(** How [save_data]'s write goes: the environment decides. *)
Inductive write_outcome : Type :=
| WriteOk
| OpenFails (e : string)
| DumpFails (e : string).

Record world : Type := {
  members : list (value * Member.t);
  file : disk;
  stdout : list string
}.

Definition set_members (ms : list (value * Member.t)) (w : world) : world :=
  {| members := ms; file := file w; stdout := stdout w |}.

Definition set_file (f : disk) (w : world) : world :=
  {| members := members w; file := f; stdout := stdout w |}.

Definition print (line : string) (w : world) : world :=
  {| members := members w; file := file w; stdout := stdout w ++ [line] |}.

(** [str(n)] for a length. *)
Definition str_of_len (n : nat) : string :=
  NilEmpty.string_of_uint (Nat.to_uint n).

(** ** class GymController *)

(** A method of the controller: it runs in a world and leaves a world, also
    when it raises. *)
Definition M (A : Type) : Type := world -> result A * world.

Definition ret {A : Type} (a : A) : M A := fun w => (Ok a, w).

Definition raise {A : Type} (e : exn) : M A := fun w => (Raise e, w).

Definition lift {A : Type} (r : result A) : M A := fun w => (r, w).

Definition modify (f : world -> world) : M unit := fun w => (Ok tt, f w).

Definition gets {A : Type} (f : world -> A) : M A := fun w => (Ok (f w), w).

Definition mbind {A B : Type} (c : M A) (k : A -> M B) : M B :=
  fun w =>
    match c w with
    | (Ok a, w') => k a w'
    | (Raise e, w') => (Raise e, w')
    end.

Notation "x <~ c ;; k" := (mbind c (fun x => k))
  (at level 61, c at next level, right associativity) : py_scope.
Notation "c ;;; k" := (mbind c (fun _ => k))
  (at level 61, right associativity) : py_scope.

Module GymController.

(** [self.members[member.id] = member] *)
Definition store (k : value) (m : Member.t) : M unit :=
  if hashable k then modify (fun w => set_members (setitem k m (members w)) w)
  else raise TypeError.

(** The loop of [_load_data] over [data.values()]. *)
Fixpoint load_values (now : datetime) (vs : list value) : M unit :=
  match vs with
  | [] => ret tt
  | m_data :: vs' =>
      member <~ lift (Member.from_dict now m_data) ;;
      store (Member.id member) member ;;;
      load_values now vs'
  end.

(** [data.values()]: only a dict has it. *)
Definition values (data : value) : result (list value) :=
  match data with
  | VDict d => Ok (map snd d)
  | _ => Raise AttributeError
  end.

Definition _load_data (now : datetime) (f : startup_file) : M unit :=
  match f with
  | Absent => ret tt
  | Unreadable | Garbage =>
      modify (print "System Warning: Database corrupted or empty. Starting fresh.")
  | Json data =>
      vs <~ lift (values data) ;;
      load_values now vs ;;;
      n <~ gets (fun w => List.length (members w)) ;;
      modify (print ("System: Loaded " ++ str_of_len n ++ " records from database."))
  end.

(** [GymController()]: the object exists only if [__init__] returns. *)
Definition __init__ (now : datetime) (f : startup_file) : result world :=
  match _load_data now f {| members := []; file := AsFound f; stdout := [] |} with
  | (Ok _, w) => Ok w
  | (Raise e, _) => Raise e
  end.

(** [{m_id: m.to_dict() for m_id, m in self.members.items()}] *)
Definition dump_data (ms : list (value * Member.t)) : list (value * value) :=
  map (fun '(m_id, m) => (m_id, Member.to_dict m)) ms.

Definition save_data (io : write_outcome) : M unit :=
  fun w =>
    let data := dump_data (members w) in
    match io with
    | WriteOk => (Ok tt, set_file (Dumped data) w)
    | OpenFails e =>
        (Ok tt, print ("Critical Error: Could not save data. " ++ e) w)
    | DumpFails e =>
        (Ok tt, print ("Critical Error: Could not save data. " ++ e)
                  (set_file Truncated w))
    end.

Definition create_member (now : datetime) (io : write_outcome)
    (m_id name : string) (age : Z) (gender phone : string)
    (weight height : float) (tier : string) : M unit :=
  present <~ gets (fun w => contains (VStr m_id) (members w)) ;;
  if present : bool then
    raise (DuplicateIdError ("ID " ++ m_id ++ " already in use."))
  else
    new_member <~ lift (Member.__init__ now (VStr m_id) (VStr name) (VInt age)
                          (VStr gender) (VStr phone) (VFloat weight)
                          (VFloat height) (VStr tier)) ;;
    store (VStr m_id) new_member ;;;
    save_data io.

Definition get_member (m_id : string) : M Member.t :=
  found <~ gets (fun w => lookup (VStr m_id) (members w)) ;;
  match found with
  | None => raise (MemberNotFoundError ("Member " ++ m_id ++ " not found."))
  | Some m => ret m
  end.

Definition delete_member (io : write_outcome) (m_id : string) : M unit :=
  present <~ gets (fun w => contains (VStr m_id) (members w)) ;;
  if present : bool then
    modify (fun w => set_members (delitem (VStr m_id) (members w)) w) ;;;
    save_data io
  else
    raise (MemberNotFoundError ("Cannot delete. ID " ++ m_id ++ " not found.")).

(** [member] is the object held in the mapping: marking it changes the
    mapping's entry in place. *)
Definition log_attendance (now : datetime) (io : write_outcome)
    (m_id : string) : M value :=
  member <~ get_member m_id ;;
  marked <~ lift (Member.mark_attendance now member) ;;
  modify (fun w => set_members (setitem (VStr m_id) marked (members w)) w) ;;;
  save_data io ;;;
  ret (Member.name marked).

(** [m.tier == t] for a string literal [t]: only an equal string is equal. *)
Definition tier_is (t : string) (m : Member.t) : bool :=
  match Member.tier m with
  | VStr s => String.eqb s t
  | _ => false
  end.

(** [sum(...)] over floats: from [0], left to right (as CPython does up
    to 3.11; later versions carry a compensation term along). *)
Definition sum (xs : list float) : float :=
  fold_left PrimFloat.add xs 0%float.

(** [len([m for m in self.members.values() if m.tier == t])] *)
Definition tier_count (t : string) (ms : list (value * Member.t)) : Z :=
  Z.of_nat (List.length (filter (tier_is t) (map snd ms))).

Definition get_analytics : M value :=
  ms <~ gets members ;;
  let total := List.length ms in
  if Nat.eqb total 0 then
    ret (VDict [("total", VInt 0); ("avg_bmi", VInt 0)])
  else
    avg_bmi <~ lift (Py.truediv (VFloat (sum (map Member.bmi (map snd ms))))
                       (Py.NInt (Z.of_nat total))) ;;
    let tiers := VDict [("Basic", VInt (tier_count "Basic" ms));
                        ("Premium", VInt (tier_count "Premium" ms));
                        ("VIP", VInt (tier_count "VIP" ms))] in
    ret (VDict [("total", VInt (Z.of_nat total));
                ("avg_bmi", VFloat (Py.round2 avg_bmi));
                ("tiers", tiers)]).

End GymController.

(** * Specifications and sample data

    The statements of the specification as definitions of their own, the
    store states a run can reach, and the members, documents and stores
    used as instances. *)

(** ** The body mass index as the specification words it *)



(** ** Members, documents and stores used as instances *)

(** [m] with its index replaced. *)
Definition with_bmi (b : float) (m : Member.t) : Member.t :=
  {| Member.id := Member.id m; Member.name := Member.name m;
     Member.age := Member.age m; Member.gender := Member.gender m;
     Member.phone := Member.phone m; Member.weight := Member.weight m;
     Member.height := Member.height m; Member.bmi := b;
     Member.tier := Member.tier m; Member.join_date := Member.join_date m;
     Member.attendance_log := Member.attendance_log m |}.

(** Ann, 60 kg and 1.6 m, as a document with a stale index of 99.9 would
    describe her. *)
Definition ann_stale : Member.t :=
  {| Member.id := VStr "M1"; Member.name := VStr "Ann";
     Member.age := VInt 30; Member.gender := VStr "F";
     Member.phone := VStr "555"; Member.weight := VFloat 60;
     Member.height := VFloat 0x1.999999999999ap+0;
     Member.bmi := 0x1.8f9999999999ap+6;
     Member.tier := VStr "Basic"; Member.join_date := VStr "2024-01-01";
     Member.attendance_log := VList [VStr "2024-01-02 08:00:00"] |}.

Definition noon : datetime :=
  {| strftime_date := "2024-03-05"; strftime_seconds := "2024-03-05 12:00:00" |}.

(** Ann with the index her weight and height give, and a small store:
    Ann, registered and saved. *)
Definition ann : Member.t := with_bmi 0x1.770a3d70a3d71p+4 ann_stale.

Definition ann_world : world :=
  {| members := [(VStr "M1", ann)];
     file := Dumped [(VStr "M1", Member.to_dict ann)];
     stdout := ["System: Loaded 1 records from database."] |}.

(** ** Analytics as the specification words them *)

(** The arithmetic mean of the indices, their number [n] given as a float. *)
Definition spec_mean (bmis : list float) (n : float) : float :=
  (fold_left PrimFloat.add bmis 0 / n)%float.

(** The tier attribute is exactly the string [t]. *)
Definition has_tier (t : string) (m : Member.t) : bool :=
  match Member.tier m with
  | VStr s => String.eqb s t
  | _ => false
  end.

Definition spec_tier_count (t : string) (ms : list Member.t) : Z :=
  Z.of_nat (List.length (filter (has_tier t) ms)).

(** The answer for the members [ms] in roster order. *)
Definition spec_analytics (ms : list Member.t) (n : float) : value :=
  match ms with
  | [] => VDict [("total", VInt 0); ("avg_bmi", VInt 0)]
  | _ :: _ =>
      VDict [("total", VInt (Z.of_nat (List.length ms)));
             ("avg_bmi", VFloat (Py.round2 (spec_mean (map Member.bmi ms) n)));
             ("tiers", VDict [("Basic", VInt (spec_tier_count "Basic" ms));
                              ("Premium", VInt (spec_tier_count "Premium" ms));
                              ("VIP", VInt (spec_tier_count "VIP" ms))])]
  end.

(** A member whose tier is none of the three names. *)
Definition other_tier (m : Member.t) : bool :=
  negb (has_tier "Basic" m || has_tier "Premium" m || has_tier "VIP" m).

(** A member known by id, tier and index. *)
Definition sample (m_id tier : string) (bmi : float) : value * Member.t :=
  (VStr m_id,
   {| Member.id := VStr m_id; Member.name := VStr "N"; Member.age := VInt 30;
      Member.gender := VStr "F"; Member.phone := VStr "555";
      Member.weight := VFloat 60; Member.height := VFloat 2;
      Member.bmi := bmi; Member.tier := VStr tier;
      Member.join_date := VStr "2024-01-01";
      Member.attendance_log := VList [] |}).

Definition roster (ms : list (value * Member.t)) : world :=
  {| members := ms; file := AsFound Absent; stdout := [] |}.

Definition four : world :=
  roster [sample "a" "Basic" 20; sample "b" "Basic" 30;
          sample "c" "VIP" 25; sample "d" "Gold" 25].

(** ** Documents *)

(** The keys [from_dict] subscripts the document with. *)
Definition required_keys : list string :=
  ["id"; "name"; "age"; "gender"; "phone"; "weight"; "height"; "tier"].

Definition has_key (d : list (string * value)) (k : string) : bool :=
  match assoc k d with Some _ => true | None => false end.

Definition has_required_keys (d : list (string * value)) : bool :=
  forallb (has_key d) required_keys.

(** [data.get(k, default)] once [data] is known to be a dict. *)
Definition get_or (d : list (string * value)) (k : string) (default : value)
    : value :=
  match assoc k d with Some v => v | None => default end.

(** A document with all eight keys whose weight is a string. *)
Definition weight_as_text : list (string * value) :=
  [("id", VStr "M1"); ("name", VStr "Ann"); ("age", VInt 30);
   ("gender", VStr "F"); ("phone", VStr "555"); ("weight", VStr "60");
   ("height", VFloat 0x1.999999999999ap+0); ("tier", VStr "Basic")].

(** The least document [from_dict] accepts, and one without a tier. *)
Definition minimal_doc : list (string * value) :=
  [("id", VStr "M1"); ("name", VStr "Ann"); ("age", VInt 30);
   ("gender", VStr "F"); ("phone", VStr "555"); ("weight", VFloat 60);
   ("height", VFloat 0x1.999999999999ap+0); ("tier", VStr "Basic")].

Definition no_tier_doc : list (string * value) :=
  [("id", VStr "M1"); ("name", VStr "Ann"); ("age", VInt 30);
   ("gender", VStr "F"); ("phone", VStr "555"); ("weight", VFloat 60);
   ("height", VFloat 0x1.999999999999ap+0)].

(** ** Store states *)

Definition corrupt_warning : string :=
  "System Warning: Database corrupted or empty. Starting fresh.".



(** The store states a run can reach: the one [GymController()] builds from
    the file it finds, and those the three mutating methods lead to,
    whether they return or raise. *)
Inductive reachable : world -> Prop :=
| reach_init now f w :
    GymController.__init__ now f = Ok w -> reachable w
| reach_create now io m_id name age gender phone weight height tier w r w' :
    reachable w ->
    GymController.create_member now io m_id name age gender phone weight
      height tier w = (r, w') ->
    reachable w'
| reach_delete io m_id w r w' :
    reachable w ->
    GymController.delete_member io m_id w = (r, w') ->
    reachable w'
| reach_log now io m_id w r w' :
    reachable w ->
    GymController.log_attendance now io m_id w = (r, w') ->
    reachable w'.

(** A run: a file with one member is loaded, a second member is created
    and checked in. *)
Definition one_member_file : startup_file :=
  Json (VDict [("M1", VDict minimal_doc)]).

Definition loaded : world :=
  match GymController.__init__ noon one_member_file with
  | Ok w => w
  | Raise _ => roster []
  end.

Definition with_bob : world :=
  snd (GymController.create_member noon WriteOk "M2" "Bob" 41 "M" "556" 80 2
         "VIP" loaded).

Definition bob_checked_in : world :=
  snd (GymController.log_attendance noon (OpenFails "Permission denied") "M2"
         with_bob).

(** ** Attendance *)


(** [m] with its attendance log replaced. *)
Definition with_log (a : value) (m : Member.t) : Member.t :=
  {| Member.id := Member.id m; Member.name := Member.name m;
     Member.age := Member.age m; Member.gender := Member.gender m;
     Member.phone := Member.phone m; Member.weight := Member.weight m;
     Member.height := Member.height m; Member.bmi := Member.bmi m;
     Member.tier := Member.tier m; Member.join_date := Member.join_date m;
     Member.attendance_log := a |}.



(** Ann's store as loaded from a file that records one earlier visit. *)
Definition ann_loaded : world :=
  match GymController.__init__ noon (Json (VDict [("M1", Member.to_dict ann)]))
  with
  | Ok w => w
  | Raise _ => roster []
  end.

(** ** Persistence *)

(** The line [save_data] prints for an [IOError] that reads [e]. *)
Definition report (e : string) : string :=
  "Critical Error: Could not save data. " ++ e.

(** The file holds the serialisation of the mapping in memory. *)
Definition in_sync (w : world) : Prop :=
  file w = Dumped (GymController.dump_data (members w)).

(** What a save does to the file and the console, by the way the write
    goes: the document is replaced by the serialisation of the mapping and
    nothing is printed; or the file cannot be opened, stays as it was and
    the failure is printed; or the write breaks off, leaving the file cut
    short, and the failure is printed. *)
Definition save_outcome (io : write_outcome) (before after : world) : Prop :=
  match io with
  | WriteOk => in_sync after /\ stdout after = stdout before
  | OpenFails e =>
      file after = file before /\ stdout after = (stdout before ++ [report e])%list
  | DumpFails e =>
      file after = Truncated /\ stdout after = (stdout before ++ [report e])%list
  end.

Definition write_failed (io : write_outcome) : Prop := io <> WriteOk.

(** The world a mutation leaves: the changed mapping [ms], then the save. *)
Definition mutated (io : write_outcome) (ms : list (value * Member.t))
    (w : world) : world :=
  snd (GymController.save_data io (set_members ms w)).

(** Bob as [with_bob] holds him, and a write that cannot open the file. *)
Definition bob : Member.t :=
  {| Member.id := VStr "M2"; Member.name := VStr "Bob";
     Member.age := VInt 41; Member.gender := VStr "M";
     Member.phone := VStr "556"; Member.weight := VFloat 80;
     Member.height := VFloat 2; Member.bmi := 20;
     Member.tier := VStr "VIP"; Member.join_date := VStr "2024-03-05";
     Member.attendance_log := VList [] |}.

Definition denied : write_outcome := OpenFails "Permission denied".

(** ** Further instances and notions *)

(** The keys [from_dict] looks at. *)
Definition read_keys : list string :=
  required_keys ++ ["join_date"; "attendance_log"].

(** Ann's document as saved, and the same with another stored index, an
    unknown key and the keys in another order. *)
Definition ann_doc : list (string * value) :=
  match Member.to_dict ann with
  | VDict d => d
  | _ => []
  end.

Definition ann_doc_edited : list (string * value) :=
  [("nickname", VStr "Annie"); ("bmi", VFloat 0x1.8f9999999999ap+6);
   ("attendance_log", VList [VStr "2024-01-02 08:00:00"]);
   ("join_date", VStr "2024-01-01"); ("tier", VStr "Basic");
   ("height", VFloat 0x1.999999999999ap+0); ("weight", VFloat 60);
   ("phone", VStr "555"); ("gender", VStr "F"); ("age", VInt 30);
   ("name", VStr "Ann"); ("id", VStr "M1")].

(** The stored index is the one the stored weight and height give. *)
Definition bmi_consistent (m : Member.t) : Prop :=
  Member._calculate_bmi (Member.weight m) (Member.height m)
  = Ok (Member.bmi m).

(** No two entries of the mapping have keys the dict holds equal. *)
Fixpoint distinct_keys (ms : list (value * Member.t)) : Prop :=
  match ms with
  | [] => True
  | (k, _) :: rest =>
      Forall (fun e => key_eqb k (fst e) = false) rest /\ distinct_keys rest
  end.

(** The member [Member(m_id, name, age, gender, phone, weight, height, tier)]
    is when its construction returns, for float weight and height. *)
Definition new_member (now : datetime) (m_id name : string) (age : Z)
    (gender phone : string) (weight height : float) (tier : string)
    : Member.t :=
  {| Member.id := VStr m_id; Member.name := VStr name;
     Member.age := VInt age; Member.gender := VStr gender;
     Member.phone := VStr phone; Member.weight := VFloat weight;
     Member.height := VFloat height;
     Member.bmi := if (height * height =? 0)%float then 0%float
                   else Py.round2 (weight / (height * height));
     Member.tier := VStr tier;
     Member.join_date := VStr (strftime_date now);
     Member.attendance_log := VList [] |}.

(** The square of the height is out of the range of floats. *)
Definition square_overflows (height : float) : bool :=
  is_infinity (height * height) && negb (is_infinity height).

(** The store [with_bob] after Ann is deleted. *)
Definition without_ann : world :=
  snd (GymController.delete_member WriteOk "M1" with_bob).

(** A file whose only member has [null] for attendance log, and the store
    loaded from it. *)
Definition null_log_file : startup_file :=
  Json (VDict [("M1", VDict (minimal_doc ++ [("attendance_log", VNone)]))]).

Definition null_log_store : world :=
  match GymController.__init__ noon null_log_file with
  | Ok w => w
  | Raise _ => roster []
  end.





(** ** class CLI *)

(** The built-in functions the console code calls on what is typed, taken
    as the interpreter provides them: the [str] methods [strip], [upper],
    [lower] and [capitalize]; [int] and [float] on a string ([parse_int], [parse_float]), [None] standing
    for [ValueError]; and [str] of a float and of a list or dict. *)
Record builtins : Type := {
  strip : string -> string;
  upper : string -> string;
  lower : string -> string;
  capitalize : string -> string;
  parse_int : string -> option Z;
  parse_float : string -> option float;
  float_str : float -> string;
  container_str : value -> string
}.

(** How a console method ends: it returns, or an exception of the
    controller escapes it, or [input()] finds the input at its end. *)
Inductive signal : Type :=
| Uncaught (e : exn)
| EOFError.

Inductive outcome (A : Type) : Type :=
| Returns (a : A)
| Fails (s : signal).
Arguments Returns {A} a.
Arguments Fails {A} s.

(** The console: the controller with its world, and the lines still to be
    typed.  Prompts are not recorded, only what [print] writes. *)
Record session : Type := {
  controller : world;
  keyboard : list string
}.

Definition IO (A : Type) : Type := session -> outcome A * session.

Definition io_ret {A : Type} (a : A) : IO A := fun s => (Returns a, s).

Definition io_bind {A B : Type} (c : IO A) (k : A -> IO B) : IO B :=
  fun s =>
    match c s with
    | (Returns a, s') => k a s'
    | (Fails x, s') => (Fails x, s')
    end.

Notation "x <<- c ;; k" := (io_bind c (fun x => k))
  (at level 61, c at next level, right associativity) : py_scope.
Notation "c >>> k" := (io_bind c (fun _ => k))
  (at level 61, right associativity) : py_scope.

(** A call into the controller. *)
Definition call {A : Type} (m : M A) : IO A :=
  fun s =>
    match m (controller s) with
    | (Ok a, w) => (Returns a, {| controller := w; keyboard := keyboard s |})
    | (Raise e, w) =>
        (Fails (Uncaught e), {| controller := w; keyboard := keyboard s |})
    end.

(** [print(line)] *)
Definition say (line : string) : IO unit :=
  call (modify (print line)).

(** [input(prompt)]: the next line typed, [EOFError] when there is none. *)
Definition input : IO string :=
  fun s =>
    match keyboard s with
    | [] => (Fails EOFError, s)
    | line :: rest =>
        (Returns line, {| controller := controller s; keyboard := rest |})
    end.

(** [try: body except E as e: handler(e)], for the exceptions [catches]
    selects. *)
Definition try_except {A : Type} (body : IO A) (catches : exn -> bool)
    (handler : exn -> IO A) : IO A :=
  fun s =>
    match body s with
    | (Fails (Uncaught e), s') =>
        if catches e then handler e s' else (Fails (Uncaught e), s')
    | r => r
    end.

Definition is_DuplicateIdError (e : exn) : bool :=
  match e with DuplicateIdError _ => true | _ => false end.

Definition is_MemberNotFoundError (e : exn) : bool :=
  match e with MemberNotFoundError _ => true | _ => false end.

(** [str(e)] of an exception raised with one message. *)
Definition exn_str (e : exn) : string :=
  match e with
  | DuplicateIdError msg | MemberNotFoundError msg => msg
  | _ => ""
  end.

(** [str(z)] of an int. *)
Definition int_str (z : Z) : string :=
  NilZero.string_of_int (Z.to_int z).

(** [str(v)], as an f-string formats a value. *)
Definition py_str (B : builtins) (v : value) : string :=
  match v with
  | VNone => "None"
  | VBool true => "True"
  | VBool false => "False"
  | VInt z => int_str z
  | VFloat f => float_str B f
  | VStr s => s
  | VList _ | VDict _ => container_str B v
  end.

Definition newline : string := String "010"%char "".

Module CLI.

(** The loop of [get_valid_input] over the lines still to be typed: every
    line that [type_func] rejects with [ValueError] is answered with
    [error_msg]. *)
Fixpoint get_valid_input_loop {A : Type} (B : builtins)
    (type_func : string -> option A) (error_msg : string)
    (lines : list string) (w : world) : outcome A * session :=
  match lines with
  | [] => (Fails EOFError, {| controller := w; keyboard := [] |})
  | line :: rest =>
      match type_func (strip B line) with
      | Some a => (Returns a, {| controller := w; keyboard := rest |})
      | None => get_valid_input_loop B type_func error_msg rest
                  (print error_msg w)
      end
  end.

Definition get_valid_input {A : Type} (B : builtins)
    (type_func : string -> option A) : IO A :=
  fun s =>
    get_valid_input_loop B type_func "Invalid input" (keyboard s)
      (controller s).

Definition header (text : string) : IO unit :=
  say (newline ++ "--- " ++ text ++ " ---").

Definition known_tier (tier : string) : bool :=
  String.eqb tier "Basic" || String.eqb tier "Premium" || String.eqb tier "VIP".

Definition view_register (B : builtins) (now : datetime) (io : write_outcome)
    : IO unit :=
  header "Register Member" >>>
  try_except
    (m_id <<- input ;;
     let m_id := strip B m_id in
     name <<- input ;;
     let name := strip B name in
     age <<- get_valid_input B (parse_int B) ;;
     gender <<- input ;;
     let gender := upper B gender in
     phone <<- input ;;
     weight <<- get_valid_input B (parse_float B) ;;
     height <<- get_valid_input B (parse_float B) ;;
     say (newline ++ "Membership Tiers: Basic, Premium, VIP") >>>
     tier <<- input ;;
     let tier := capitalize B tier in
     let tier := if known_tier tier then tier else "Basic" in
     call (GymController.create_member now io m_id name age gender phone
             weight height tier) >>>
     say ("Success: " ++ name ++ " registered as " ++ tier ++ " member."))
    is_DuplicateIdError
    (fun e => say ("Error: " ++ exn_str e)).

(** [hm] is the [strftime('%H:%M')] of the clock when the greeting is
    printed. *)
Definition view_check_in (B : builtins) (now : datetime) (hm : string)
    (io : write_outcome) : IO unit :=
  header "Attendance Check-In" >>>
  m_id <<- input ;;
  try_except
    (name <<- call (GymController.log_attendance now io m_id) ;;
     say ("Welcome back, " ++ py_str B name ++ "! Checked in at " ++ hm ++ "."))
    is_MemberNotFoundError
    (fun _ => say "ID not recognized.").

Definition view_delete (B : builtins) (io : write_outcome) : IO unit :=
  m_id <<- input ;;
  answer <<- input ;;
  if String.eqb (lower B answer) "y" then
    try_except
      (call (GymController.delete_member io m_id) >>>
       say "Record deleted.")
      is_MemberNotFoundError
      (fun _ => say "ID not found.")
  else io_ret tt.

(** The loop of [view_analytics] over [stats['tiers'].items()]. *)
Fixpoint print_tiers (B : builtins) (items : list (string * value)) : IO unit :=
  match items with
  | [] => io_ret tt
  | (tier, count) :: rest =>
      say (" - " ++ tier ++ ": " ++ py_str B count) >>> print_tiers B rest
  end.

(** [d.items()]: only a dict has it. *)
Definition items (d : value) : result (list (string * value)) :=
  match d with
  | VDict l => Ok l
  | _ => Raise AttributeError
  end.

Definition view_analytics (B : builtins) : IO unit :=
  header "Gym Analytics" >>>
  stats <<- call GymController.get_analytics ;;
  total <<- call (lift (getitem stats "total")) ;;
  say ("Total Members: " ++ py_str B total) >>>
  avg_bmi <<- call (lift (getitem stats "avg_bmi")) ;;
  say ("Average BMI:   " ++ py_str B avg_bmi) >>>
  say "Membership Distribution:" >>>
  tiers <<- call (lift (getitem stats "tiers")) ;;
  pairs <<- call (lift (items tiers)) ;;
  print_tiers B pairs.

End CLI.

(** ** Notions for the console *)

(** [w] with [lines] printed after what it has printed. *)
Definition printed (lines : list string) (w : world) : world :=
  {| members := members w; file := file w;
     stdout := (stdout w ++ lines)%list |}.

(** The mapping and the file are the same; only the console may differ. *)
Definition same_store (w w' : world) : Prop :=
  members w' = members w /\ file w' = file w.

(** A stand-in for the built-ins, right on the lines typed in the
    instances below: no blanks to strip, cases as typed, and the numbers
    30, 60 and 1.6. *)
Definition typed_as_is : builtins :=
  {| strip := fun s => s;
     upper := fun s => s;
     lower := fun s => s;
     capitalize := fun s => s;
     parse_int := fun s => if String.eqb s "30" then Some 30%Z else None;
     parse_float := fun s =>
       if String.eqb s "60" then Some 60%float
       else if String.eqb s "1.6" then Some 0x1.999999999999ap+0%float
       else None;
     float_str := fun _ => "<float>";
     container_str := fun _ => "<container>" |}.

(** What [view_analytics] prints before the tier lines. *)
Definition analytics_header : string := newline ++ "--- Gym Analytics ---".

(** The average [get_analytics] reports for a non-empty mapping whose
    length is [n] as a float. *)
Definition average_bmi (ms : list (value * Member.t)) (n : float) : float :=
  Py.round2 (GymController.sum (map Member.bmi (map snd ms)) / n).

Definition check_in_header : string := newline ++ "--- Attendance Check-In ---".

(** The greeting of [view_check_in]. *)
Definition welcome (B : builtins) (name : value) (hm : string) : string :=
  "Welcome back, " ++ py_str B name ++ "! Checked in at " ++ hm ++ ".".

(** ** Registration at the console *)

(** The post-condition [Q] holds of what the action [c] does from [s]. *)
Definition wp {A : Type} (c : IO A) (Q : outcome A -> session -> Prop)
    (s : session) : Prop :=
  Q (fst (c s)) (snd (c s)).

(** [w'] holds one member more than [w], under an id new to [w] and with
    one of the three tiers. *)
Definition grown_by_one (w w' : world) : Prop :=
  exists m_id m tier,
    contains (VStr m_id) (members w) = false
    /\ members w' = (members w ++ [(VStr m_id, m)])%list
    /\ Member.tier m = VStr tier
    /\ CLI.known_tier tier = true.



(** The tier [view_register] registers for the answer typed. *)
Definition chosen_tier (B : builtins) (answer : string) : string :=
  if CLI.known_tier (capitalize B answer) then capitalize B answer
  else "Basic".

(** Where [view_register] may end from [s]. *)
Definition register_post (s : session) (o : outcome unit) (s' : session)
    : Prop :=
  (o = Returns tt \/ o = Fails EOFError \/ o = Fails (Uncaught OverflowError))
  /\ (same_store (controller s) (controller s')
      \/ grown_by_one (controller s) (controller s'))
  /\ (o <> Returns tt -> same_store (controller s) (controller s')).

(** ** Restarting on a saved file *)




(** * Properties *)

(** ** The body mass index (C2) *)

Lemma calculate_bmi_unfold (w h : float) :
  Member._calculate_bmi (VFloat w) (VFloat h) =
  if is_infinity (h * h) && negb (is_infinity h) then Raise OverflowError
  else if (h * h =? 0)%float then Ok 0%float
  else Ok (Py.round2 (w / (h * h))).
Proof.
  unfold Member._calculate_bmi, Py.pow2, Py.float_pow2; simpl.
  destruct (is_infinity (h * h) && negb (is_infinity h)); simpl; [reflexivity|].
  unfold Py.truediv, Py.float_div; simpl.
  destruct (h * h =? 0)%float; reflexivity.
Qed.

Lemma init_bmi now m_id name age gender phone weight height tier m :
  Member.__init__ now m_id name age gender phone weight height tier = Ok m ->
  Member._calculate_bmi weight height = Ok (Member.bmi m).
Proof.
  unfold Member.__init__.
  destruct (Member._calculate_bmi weight height); simpl; intros H;
    inversion H; reflexivity.
Qed.



(** The scenario of the specification: 60 kg at 1.6 m give 23.44; and a
    height whose square underflows gives [0.0] although it is not zero. *)
Example bmi_of_ann :
  Member._calculate_bmi (VInt 60) (VFloat 0x1.999999999999ap+0)
  = Ok 0x1.770a3d70a3d71p+4%float.
Proof. vm_compute. reflexivity. Qed.

Example bmi_of_tiny_height :
  Member._calculate_bmi (VFloat 60) (VFloat 0x1p-600) = Ok 0%float.
Proof. vm_compute. reflexivity. Qed.

(** ** Serialisation round trip (C1) *)


Lemma from_dict_to_dict now m b :
  Member._calculate_bmi (Member.weight m) (Member.height m) = Ok b ->
  Member.from_dict now (Member.to_dict m) = Ok (with_bmi b m).
Proof.
  intros Hb. unfold Member.from_dict, Member.to_dict; simpl.
  unfold Member.__init__. rewrite Hb. reflexivity.
Qed.

(** Every member the class builds has an index computable from its weight
    and height, and holds that index. *)
Lemma from_dict_bmi now data m :
  Member.from_dict now data = Ok m ->
  Member._calculate_bmi (Member.weight m) (Member.height m)
    = Ok (Member.bmi m).
Proof.
  unfold Member.from_dict.
  repeat match goal with
  | |- (_ <- ?c ;; _) = Ok _ -> _ =>
      let H := fresh "E" in destruct c eqn:H; simpl; [|discriminate]
  end.
  intros H; inversion H; subst; simpl.
  match goal with
  | E : Member.__init__ _ _ _ _ _ _ ?w ?h _ = Ok _ |- _ =>
      unfold Member.__init__ in E;
      destruct (Member._calculate_bmi w h) eqn:Hb; simpl in E;
      [inversion E; subst; simpl; exact Hb | discriminate]
  end.
Qed.

Lemma mark_attendance_keeps now m m' :
  Member.mark_attendance now m = Ok m' ->
  Member.weight m' = Member.weight m
  /\ Member.height m' = Member.height m
  /\ Member.bmi m' = Member.bmi m
  /\ Member.id m' = Member.id m
  /\ Member.name m' = Member.name m.
Proof.
  unfold Member.mark_attendance.
  destruct (Member.attendance_log m); try discriminate.
  intros H; inversion H; subst; simpl; repeat split.
Qed.

(** C1: deserialising the serialisation of a member [m] returns a member
    with the same id, name, age, gender, phone, weight, height, tier,
    join_date and attendance_log; its bmi is the one computed from the
    stored weight and height, whatever bmi the document carried; and doing
    it again changes nothing.  The hypothesis is that an index can be
    computed from [m]'s weight and height, as for every member the class
    constructs. *)
Theorem roundtrip (now : datetime) (m : Member.t) (b : float) :
  Member._calculate_bmi (Member.weight m) (Member.height m) = Ok b ->
  exists m',
    Member.from_dict now (Member.to_dict m) = Ok m'
    /\ Member.id m' = Member.id m
    /\ Member.name m' = Member.name m
    /\ Member.age m' = Member.age m
    /\ Member.gender m' = Member.gender m
    /\ Member.phone m' = Member.phone m
    /\ Member.weight m' = Member.weight m
    /\ Member.height m' = Member.height m
    /\ Member.tier m' = Member.tier m
    /\ Member.join_date m' = Member.join_date m
    /\ Member.attendance_log m' = Member.attendance_log m
    /\ Member.bmi m' = b
    /\ (forall later, Member.from_dict later (Member.to_dict m') = Ok m').
Proof.
  intros Hb. exists (with_bmi b m).
  split; [apply from_dict_to_dict; exact Hb|].
  repeat (split; [reflexivity|]).
  intros later.
  rewrite (from_dict_to_dict later (with_bmi b m) b); [reflexivity | exact Hb].
Qed.

Lemma roundtrip_witness :
  Member._calculate_bmi (Member.weight ann_stale) (Member.height ann_stale)
    = Ok 0x1.770a3d70a3d71p+4%float
  /\ exists m',
       Member.from_dict noon (Member.to_dict ann_stale) = Ok m'
       /\ Member.id m' = Member.id ann_stale
       /\ Member.name m' = Member.name ann_stale
       /\ Member.age m' = Member.age ann_stale
       /\ Member.gender m' = Member.gender ann_stale
       /\ Member.phone m' = Member.phone ann_stale
       /\ Member.weight m' = Member.weight ann_stale
       /\ Member.height m' = Member.height ann_stale
       /\ Member.tier m' = Member.tier ann_stale
       /\ Member.join_date m' = Member.join_date ann_stale
       /\ Member.attendance_log m' = Member.attendance_log ann_stale
       /\ Member.bmi m' = 0x1.770a3d70a3d71p+4%float
       /\ (forall later, Member.from_dict later (Member.to_dict m') = Ok m').
Proof.
  split; [vm_compute; reflexivity|].
  apply (roundtrip noon ann_stale). vm_compute; reflexivity.
Defined.

(** ** Failing operations leave the store as it was (C3, C4) *)

Lemma contains_false_lookup {V : Type} (k : value) (d : list (value * V)) :
  contains k d = false <-> lookup k d = None.
Proof.
  unfold contains. destruct (lookup k d); split; intros H;
    try reflexivity; discriminate H.
Qed.

Lemma contains_true_lookup {V : Type} (k : value) (d : list (value * V)) :
  contains k d = true <-> exists v, lookup k d = Some v.
Proof.
  unfold contains. destruct (lookup k d) as [v|]; split; intros H.
  - exists v; reflexivity.
  - reflexivity.
  - discriminate H.
  - destruct H as [v H]; discriminate H.
Qed.

(** C3: creating a member under an id the mapping already holds raises
    [DuplicateIdError] and leaves the mapping, the file and the console as
    they were: nothing is saved. *)
Theorem create_duplicate (now : datetime) (io : write_outcome)
    (m_id name : string) (age : Z) (gender phone : string)
    (weight height : float) (tier : string) (w : world) :
  contains (VStr m_id) (members w) = true ->
  GymController.create_member now io m_id name age gender phone weight height
    tier w
  = (Raise (DuplicateIdError ("ID " ++ m_id ++ " already in use.")), w).
Proof.
  intros H. unfold GymController.create_member, mbind, gets.
  rewrite H. reflexivity.
Qed.

Lemma create_duplicate_witness :
  contains (VStr "M1") (members ann_world) = true
  /\ GymController.create_member noon WriteOk "M1" "Bob" 41 "M" "556" 80 2
       "VIP" ann_world
     = (Raise (DuplicateIdError "ID M1 already in use."), ann_world).
Proof.
  split; [reflexivity|].
  apply (create_duplicate noon WriteOk "M1" "Bob" 41 "M" "556" 80 2 "VIP"
           ann_world).
  reflexivity.
Defined.

(** C4: looking up, deleting or checking in an id the mapping does not hold
    raises [MemberNotFoundError] and leaves the mapping, the file and the
    console as they were: no member is added, removed or changed, and
    nothing is saved. *)
Theorem absent_id_fails (now : datetime) (io : write_outcome)
    (m_id : string) (w : world) :
  contains (VStr m_id) (members w) = false ->
  GymController.get_member m_id w
    = (Raise (MemberNotFoundError ("Member " ++ m_id ++ " not found.")), w)
  /\ GymController.delete_member io m_id w
     = (Raise (MemberNotFoundError
                 ("Cannot delete. ID " ++ m_id ++ " not found.")), w)
  /\ GymController.log_attendance now io m_id w
     = (Raise (MemberNotFoundError ("Member " ++ m_id ++ " not found.")), w).
Proof.
  intros H.
  assert (Hget : GymController.get_member m_id w
    = (Raise (MemberNotFoundError ("Member " ++ m_id ++ " not found.")), w)).
  { unfold GymController.get_member, mbind, gets.
    apply contains_false_lookup in H. rewrite H. reflexivity. }
  split; [exact Hget|]. split.
  - unfold GymController.delete_member, mbind, gets. rewrite H. reflexivity.
  - unfold GymController.log_attendance, mbind at 1. rewrite Hget. reflexivity.
Qed.

Lemma absent_id_fails_witness :
  contains (VStr "M2") (members ann_world) = false
  /\ GymController.get_member "M2" ann_world
     = (Raise (MemberNotFoundError "Member M2 not found."), ann_world)
  /\ GymController.delete_member WriteOk "M2" ann_world
     = (Raise (MemberNotFoundError "Cannot delete. ID M2 not found."),
        ann_world)
  /\ GymController.log_attendance noon WriteOk "M2" ann_world
     = (Raise (MemberNotFoundError "Member M2 not found."), ann_world).
Proof.
  split; [reflexivity|].
  apply (absent_id_fails noon WriteOk "M2" ann_world). reflexivity.
Defined.

(** ** Analytics (C5) *)

Lemma has_tier_exact (t : string) (m : Member.t) :
  has_tier t m = true <-> Member.tier m = VStr t.
Proof.
  unfold has_tier. destruct (Member.tier m); split; intros H;
    try discriminate H.
  - apply String.eqb_eq in H. subst; reflexivity.
  - inversion H; subst. apply String.eqb_refl.
Qed.

Lemma tier_buckets (ms : list Member.t) :
  (spec_tier_count "Basic" ms + spec_tier_count "Premium" ms
   + spec_tier_count "VIP" ms
   + Z.of_nat (List.length (filter other_tier ms))
   = Z.of_nat (List.length ms))%Z.
Proof.
  unfold spec_tier_count.
  induction ms as [|m ms IH]; [reflexivity|].
  cbn [filter].
  replace (other_tier m)
    with (negb (has_tier "Basic" m || has_tier "Premium" m || has_tier "VIP" m))
    by reflexivity.
  destruct (has_tier "Basic" m) eqn:EB, (has_tier "Premium" m) eqn:EP,
    (has_tier "VIP" m) eqn:EV;
    cbn [orb negb List.length];
    repeat match goal with
    | H : has_tier _ m = true |- _ => apply has_tier_exact in H
    end;
    try congruence; lia.
Qed.

Lemma length_zero_nil {A : Type} (l : list A) :
  Nat.eqb (List.length l) 0 = true -> l = [].
Proof. destruct l; [reflexivity | discriminate]. Qed.

(** C5: on an empty roster the analytics are total 0 and average 0 with no
    tier breakdown; on a non-empty one they are the member count, the mean
    of the members' bmi (their sum in roster order divided by the count)
    rounded to two decimals, and per tier name the number of members whose
    tier is exactly that string; a member with any other tier is in no
    bucket.  The store is left as it was.  [n] is the count converted to a
    float, which is not zero for a positive count. *)
Theorem analytics (w : world) (n : float) :
  Py.float_of_int (Z.of_nat (List.length (members w))) = Ok n ->
  (members w <> [] -> (n =? 0)%float = false) ->
  let ms := map snd (members w) in
  GymController.get_analytics w = (Ok (spec_analytics ms n), w)
  /\ (forall t m, has_tier t m = true <-> Member.tier m = VStr t)
  /\ (spec_tier_count "Basic" ms + spec_tier_count "Premium" ms
      + spec_tier_count "VIP" ms
      + Z.of_nat (List.length (filter other_tier ms))
      = Z.of_nat (List.length ms))%Z.
Proof.
  intros Hn Hpos ms.
  split; [|split; [apply has_tier_exact | apply tier_buckets]].
  unfold GymController.get_analytics, mbind, gets, ret, lift.
  destruct (members w) as [|[k m] rest] eqn:E; [reflexivity|].
  cbn [List.length Nat.eqb].
  unfold Py.truediv; cbn [Py.as_num].
  cbn [List.length] in Hn. rewrite Hn. cbn [bind].
  unfold Py.float_div. rewrite Hpos by discriminate.
  subst ms. cbn [map snd spec_analytics].
  unfold GymController.tier_count, spec_tier_count, GymController.sum,
    spec_mean.
  cbn [map snd List.length]. rewrite !length_map. reflexivity.
Qed.

Lemma analytics_witness :
  Py.float_of_int (Z.of_nat (List.length (members four))) = Ok 4%float
  /\ (members four <> [] -> (4 =? 0)%float = false)
  /\ GymController.get_analytics four
     = (Ok (VDict [("total", VInt 4); ("avg_bmi", VFloat 25);
                   ("tiers", VDict [("Basic", VInt 2); ("Premium", VInt 0);
                                    ("VIP", VInt 1)])]), four).
Proof.
  split; [vm_compute; reflexivity|].
  split; [intros _; vm_compute; reflexivity|].
  pose proof (analytics four 4) as H.
  destruct H as [H _]; [vm_compute; reflexivity | intros _; vm_compute; reflexivity |].
  rewrite H. vm_compute. reflexivity.
Defined.

(** The examples of the specification. *)
Example analytics_empty :
  GymController.get_analytics (roster [])
  = (Ok (VDict [("total", VInt 0); ("avg_bmi", VInt 0)]), roster []).
Proof. reflexivity. Qed.

Example analytics_mean_of_20_30 :
  GymController.get_analytics (roster [sample "a" "Basic" 20; sample "b" "VIP" 30])
  = (Ok (VDict [("total", VInt 2); ("avg_bmi", VFloat 25);
                ("tiers", VDict [("Basic", VInt 1); ("Premium", VInt 0);
                                 ("VIP", VInt 1)])]),
     roster [sample "a" "Basic" 20; sample "b" "VIP" 30]).
Proof. vm_compute. reflexivity. Qed.

(** ** The domain of [from_dict] (C10) *)

(** C10, as stated, fails: [weight_as_text] has all eight keys, yet
    [from_dict] raises [TypeError] on it. *)
Lemma from_dict_domain_counterexample :
  ~ (is_ok (Member.from_dict noon (VDict weight_as_text)) = true
     <-> has_required_keys weight_as_text = true).
Proof.
  intros [_ H]. specialize (H eq_refl). vm_compute in H. discriminate H.
Qed.

Lemma has_required_keys_spec (d : list (string * value)) :
  has_required_keys d = true <->
  forall k, In k required_keys -> exists v, assoc k d = Some v.
Proof.
  unfold has_required_keys. rewrite forallb_forall. unfold has_key.
  split; intros H k Hk; specialize (H k Hk);
    destruct (assoc k d) as [v|].
  - exists v; reflexivity.
  - discriminate H.
  - reflexivity.
  - destruct H as [v H]; discriminate H.
Qed.

(** C10, amended: a document lacking one of the eight keys makes
    [from_dict] raise [KeyError] (for the first missing one); a document
    with all eight succeeds exactly when an index can be computed from its
    weight and height, and otherwise raises what that computation raises
    ([TypeError], [OverflowError]); [join_date] and [attendance_log] are
    optional and default to the current date and the empty list. *)
Theorem from_dict_domain (now : datetime) (d : list (string * value)) :
  (has_required_keys d = false ->
   exists k, In k required_keys /\ assoc k d = None
             /\ Member.from_dict now (VDict d) = Raise (KeyError k))
  /\ (has_required_keys d = true ->
      Member.from_dict now (VDict d) =
      match Member._calculate_bmi (get_or d "weight" VNone)
                                  (get_or d "height" VNone) with
      | Raise e => Raise e
      | Ok b =>
          Ok {| Member.id := get_or d "id" VNone;
                Member.name := get_or d "name" VNone;
                Member.age := get_or d "age" VNone;
                Member.gender := get_or d "gender" VNone;
                Member.phone := get_or d "phone" VNone;
                Member.weight := get_or d "weight" VNone;
                Member.height := get_or d "height" VNone;
                Member.bmi := b;
                Member.tier := get_or d "tier" VNone;
                Member.join_date :=
                  get_or d "join_date" (VStr (strftime_date now));
                Member.attendance_log := get_or d "attendance_log" (VList [])
             |}
      end).
Proof.
  unfold has_required_keys, required_keys, has_key, Member.from_dict,
    getitem, get, get_or.
  cbn [forallb].
  destruct (assoc "id" d) eqn:E1;
    [|split; [intros _; exists "id"; cbn; auto 12 | discriminate]].
  destruct (assoc "name" d) eqn:E2;
    [|split; [intros _; exists "name"; cbn; auto 12 | discriminate]].
  destruct (assoc "age" d) eqn:E3;
    [|split; [intros _; exists "age"; cbn; auto 12 | discriminate]].
  destruct (assoc "gender" d) eqn:E4;
    [|split; [intros _; exists "gender"; cbn; auto 12 | discriminate]].
  destruct (assoc "phone" d) eqn:E5;
    [|split; [intros _; exists "phone"; cbn; auto 12 | discriminate]].
  destruct (assoc "weight" d) eqn:E6;
    [|split; [intros _; exists "weight"; cbn; auto 12 | discriminate]].
  destruct (assoc "height" d) eqn:E7;
    [|split; [intros _; exists "height"; cbn; auto 12 | discriminate]].
  destruct (assoc "tier" d) eqn:E8;
    [|split; [intros _; exists "tier"; cbn; auto 12 | discriminate]].
  split; [discriminate|]. intros _. cbn [bind].
  unfold Member.__init__.
  match goal with
  | |- context [Member._calculate_bmi ?vw ?vh] =>
      destruct (Member._calculate_bmi vw vh); cbn [bind]; [|reflexivity]
  end.
  destruct (assoc "join_date" d), (assoc "attendance_log" d); reflexivity.
Qed.

Lemma from_dict_domain_witness :
  (has_required_keys minimal_doc = true
   /\ Member.from_dict noon (VDict minimal_doc)
      = Ok {| Member.id := VStr "M1"; Member.name := VStr "Ann";
              Member.age := VInt 30; Member.gender := VStr "F";
              Member.phone := VStr "555"; Member.weight := VFloat 60;
              Member.height := VFloat 0x1.999999999999ap+0;
              Member.bmi := 0x1.770a3d70a3d71p+4;
              Member.tier := VStr "Basic";
              Member.join_date := VStr "2024-03-05";
              Member.attendance_log := VList [] |})
  /\ (has_required_keys no_tier_doc = false
      /\ exists k, In k required_keys /\ assoc k no_tier_doc = None
           /\ Member.from_dict noon (VDict no_tier_doc) = Raise (KeyError k)).
Proof.
  split; (split; [reflexivity|]).
  - destruct (from_dict_domain noon minimal_doc) as [_ H].
    rewrite (H eq_refl). vm_compute. reflexivity.
  - destruct (from_dict_domain noon no_tier_doc) as [H _].
    exact (H eq_refl).
Defined.

(** ** Loading at start-up (C6) *)

(** An absent file gives an empty store and no output; a file that cannot
    be read, or whose text is not JSON, gives an empty store and the
    warning. *)
Lemma load_missing_or_unparsable (now : datetime) :
  GymController.__init__ now Absent
    = Ok {| members := []; file := AsFound Absent; stdout := [] |}
  /\ GymController.__init__ now Unreadable
     = Ok {| members := []; file := AsFound Unreadable;
             stdout := [corrupt_warning] |}
  /\ GymController.__init__ now Garbage
     = Ok {| members := []; file := AsFound Garbage;
             stdout := [corrupt_warning] |}.
Proof. repeat split. Qed.

(** C6 fails on a file that is JSON but not a roster: an entry without a
    tier makes [from_dict] raise [KeyError], a top-level list makes
    [data.values()] raise [AttributeError]; neither is caught by
    [except (json.JSONDecodeError, IOError)], so [GymController()] raises
    instead of starting empty with a warning. *)
Theorem load_malformed_document_raises :
  GymController.__init__ noon (Json (VDict [("M1", VDict no_tier_doc)]))
    = Raise (KeyError "tier")
  /\ GymController.__init__ noon (Json (VList [])) = Raise AttributeError
  /\ GymController.__init__ noon (Json (VDict [("M1", VDict weight_as_text)]))
     = Raise TypeError.
Proof. repeat split. Qed.

(** ** Keys are the members' ids (C9) *)




Lemma save_data_members io w :
  members (snd (GymController.save_data io w)) = members w.
Proof. destruct io; reflexivity. Qed.

Lemma save_data_ok io w : fst (GymController.save_data io w) = Ok tt.
Proof. destruct io; reflexivity. Qed.








(** ** Attendance (C7) *)

Lemma ann_loaded_reachable : reachable ann_loaded.
Proof.
  apply (reach_init noon (Json (VDict [("M1", Member.to_dict ann)]))).
  reflexivity.
Qed.



Lemma key_eqb_str_refl (s : string) : key_eqb (VStr s) (VStr s) = true.
Proof. apply String.eqb_refl. Qed.






(** ** Persistence after every mutation (C8) *)

Lemma save_data_outcome io w ms :
  save_outcome io w (snd (GymController.save_data io (set_members ms w)))
  /\ members (snd (GymController.save_data io (set_members ms w))) = ms.
Proof. destruct io; repeat split. Qed.

(** A failed save after a change of the serialisation leaves a store that
    was in sync out of sync. *)
Lemma failed_save_diverges io w ms :
  write_failed io -> in_sync w ->
  GymController.dump_data ms <> GymController.dump_data (members w) ->
  ~ in_sync (snd (GymController.save_data io (set_members ms w))).
Proof.
  unfold write_failed, in_sync. intros Hio Hs Hd.
  destruct io as [|e|e]; [congruence| |]; cbn; intros H.
  - rewrite Hs in H. inversion H as [H1]. apply Hd. symmetry. exact H1.
  - discriminate H.
Qed.

Lemma setitem_absent {V : Type} (k : value) (v : V) d :
  lookup k d = None -> setitem k v d = (d ++ [(k, v)])%list.
Proof.
  induction d as [|[k' v'] d IH]; cbn [lookup setitem app]; [reflexivity|].
  destruct (key_eqb k' k); [discriminate|].
  intros H. rewrite (IH H). reflexivity.
Qed.

Lemma delitem_present {V : Type} (k : value) (d : list (value * V)) v :
  lookup k d = Some v -> S (List.length (delitem k d)) = List.length d.
Proof.
  induction d as [|[k' v'] d IH]; cbn [lookup delitem List.length];
    [discriminate|].
  destruct (key_eqb k' k); [reflexivity|].
  intros H. cbn [List.length]. rewrite (IH H). reflexivity.
Qed.

Lemma dump_data_length ms :
  List.length (GymController.dump_data ms) = List.length ms.
Proof. apply length_map. Qed.

Lemma dump_after_create k m ms :
  lookup k ms = None ->
  GymController.dump_data (setitem k m ms) <> GymController.dump_data ms.
Proof.
  intros Hl H. apply (f_equal (@List.length _)) in H.
  rewrite !dump_data_length, (setitem_absent _ _ _ Hl), length_app in H.
  cbn in H. lia.
Qed.

Lemma dump_after_delete k m ms :
  lookup k ms = Some m ->
  GymController.dump_data (delitem k ms) <> GymController.dump_data ms.
Proof.
  intros Hl H. apply (f_equal (@List.length _)) in H.
  rewrite !dump_data_length in H. apply delitem_present in Hl. lia.
Qed.

Lemma dump_after_update k m m' ms :
  lookup k ms = Some m -> Member.to_dict m' <> Member.to_dict m ->
  GymController.dump_data (setitem k m' ms) <> GymController.dump_data ms.
Proof.
  intros Hl Hd.
  induction ms as [|[k0 m0] ms IH]; [discriminate|].
  cbn [lookup] in Hl. cbn [setitem].
  destruct (key_eqb k0 k); cbn [GymController.dump_data map]; intros H.
  - pose proof (f_equal (fun l : list (value * value) =>
                           match l with
                           | (_, d) :: _ => Some d
                           | [] => None
                           end) H) as E.
    cbv beta iota in E. inversion Hl; subst m0. apply Hd. congruence.
  - apply IH; [exact Hl|].
    exact (f_equal (@tl (value * value)) H).
Qed.

Lemma marked_dict_differs m l x :
  Member.attendance_log m = VList l ->
  Member.to_dict (with_log (VList (l ++ [x])) m) <> Member.to_dict m.
Proof.
  intros Ha H. unfold Member.to_dict in H. cbn in H. rewrite Ha in H.
  inversion H as [H1]. apply (f_equal (@List.length _)) in H1.
  rewrite length_app in H1. cbn in H1. lia.
Qed.

Lemma save_data_returns io w :
  GymController.save_data io w = (Ok tt, snd (GymController.save_data io w)).
Proof. destruct io; reflexivity. Qed.

Lemma mutated_spec io ms w :
  GymController.dump_data ms <> GymController.dump_data (members w) ->
  members (mutated io ms w) = ms
  /\ save_outcome io w (mutated io ms w)
  /\ (write_failed io -> in_sync w -> ~ in_sync (mutated io ms w)).
Proof.
  intros Hd. unfold mutated.
  destruct (save_data_outcome io w ms) as [Ho Hm].
  split; [exact Hm|]. split; [exact Ho|].
  intros Hio Hs. apply failed_save_diverges; assumption.
Qed.

(** C8: each of Create, Delete and LogAttendance, when it succeeds, changes
    the mapping and saves at once.  If the write succeeds, the file holds
    the serialisation of the mapping in memory and nothing is printed.  If
    it fails, the failure is printed, the change stays in memory, and the
    file is left as it was or cut short, so a store that was in sync is
    out of sync afterwards. *)
Theorem persistence (now : datetime) (io : write_outcome) (w : world) :
  (forall m_id name age gender phone weight height tier m,
     contains (VStr m_id) (members w) = false ->
     Member.__init__ now (VStr m_id) (VStr name) (VInt age) (VStr gender)
       (VStr phone) (VFloat weight) (VFloat height) (VStr tier) = Ok m ->
     exists w',
       GymController.create_member now io m_id name age gender phone weight
         height tier w = (Ok tt, w')
       /\ members w' = setitem (VStr m_id) m (members w)
       /\ save_outcome io w w'
       /\ (write_failed io -> in_sync w -> ~ in_sync w'))
  /\ (forall m_id,
        contains (VStr m_id) (members w) = true ->
        exists w',
          GymController.delete_member io m_id w = (Ok tt, w')
          /\ members w' = delitem (VStr m_id) (members w)
          /\ save_outcome io w w'
          /\ (write_failed io -> in_sync w -> ~ in_sync w'))
  /\ (forall m_id m l,
        lookup (VStr m_id) (members w) = Some m ->
        Member.attendance_log m = VList l ->
        exists w',
          GymController.log_attendance now io m_id w = (Ok (Member.name m), w')
          /\ members w'
             = setitem (VStr m_id)
                 (with_log (VList (l ++ [VStr (strftime_seconds now)])) m)
                 (members w)
          /\ save_outcome io w w'
          /\ (write_failed io -> in_sync w -> ~ in_sync w')).
Proof.
  split; [|split].
  - intros m_id name age gender phone weight height tier m Hc Hm.
    exists (mutated io (setitem (VStr m_id) m (members w)) w).
    split.
    + unfold GymController.create_member, mbind, gets, lift.
      rewrite Hc, Hm. cbn [GymController.store hashable]. unfold modify.
      apply save_data_returns.
    + apply mutated_spec, dump_after_create.
      apply contains_false_lookup. exact Hc.
  - intros m_id Hc.
    exists (mutated io (delitem (VStr m_id) (members w)) w).
    split.
    + unfold GymController.delete_member, mbind, gets.
      rewrite Hc. unfold modify. apply save_data_returns.
    + apply contains_true_lookup in Hc. destruct Hc as [m Hl].
      apply mutated_spec. apply (dump_after_delete _ m). exact Hl.
  - intros m_id m l Hl Ha.
    set (m' := with_log (VList (l ++ [VStr (strftime_seconds now)])) m).
    exists (mutated io (setitem (VStr m_id) m' (members w)) w).
    split.
    + unfold GymController.log_attendance, GymController.get_member, mbind,
        gets.
      rewrite Hl. unfold ret, lift, Member.mark_attendance. rewrite Ha.
      unfold modify. fold m'.
      rewrite save_data_returns. reflexivity.
    + apply mutated_spec. apply (dump_after_update _ m); [exact Hl|].
      apply marked_dict_differs. exact Ha.
Qed.

Lemma persistence_witness :
  (lookup (VStr "M2") (members with_bob) = Some bob
   /\ Member.attendance_log bob = VList []
   /\ contains (VStr "M1") (members with_bob) = true
   /\ contains (VStr "M3") (members with_bob) = false
   /\ write_failed denied
   /\ in_sync with_bob)
  /\ (exists w',
        GymController.log_attendance noon denied "M2" with_bob
          = (Ok (VStr "Bob"), w')
        /\ members w'
           = setitem (VStr "M2")
               (with_log (VList [VStr "2024-03-05 12:00:00"]) bob)
               (members with_bob)
        /\ save_outcome denied with_bob w'
        /\ ~ in_sync w')
  /\ (exists w',
        GymController.delete_member WriteOk "M1" with_bob = (Ok tt, w')
        /\ members w' = [(VStr "M2", bob)]
        /\ in_sync w')
  /\ (exists w',
        GymController.create_member noon denied "M3" "Cy" 25 "O" "557" 80 2
          "Basic" with_bob = (Ok tt, w')
        /\ List.length (members w') = 3%nat
        /\ save_outcome denied with_bob w'
        /\ ~ in_sync w').
Proof.
  assert (Hf : write_failed denied) by (intros H; discriminate H).
  assert (Hs : in_sync with_bob) by reflexivity.
  split; [repeat split; assumption|].
  destruct (persistence noon denied with_bob) as [Hc [_ Hl]].
  destruct (persistence noon WriteOk with_bob) as [_ [Hd _]].
  split; [|split].
  - destruct (Hl "M2" bob [] eq_refl eq_refl) as [w' [E [Hm [Ho Hn]]]].
    exists w'. split; [exact E|]. split; [exact Hm|]. split; [exact Ho|].
    apply Hn; assumption.
  - destruct (Hd "M1" eq_refl) as [w' [E [Hm [Ho _]]]].
    exists w'. split; [exact E|]. split; [exact Hm|]. apply Ho.
  - edestruct (Hc "M3" "Cy" 25%Z "O" "557" 80%float 2%float "Basic")
      as [w' [E [Hm [Ho Hn]]]]; [reflexivity | reflexivity |].
    exists w'. split; [exact E|]. split; [rewrite Hm; reflexivity|].
    split; [exact Ho|]. apply Hn; assumption.
Defined.

(** * Further properties of the code *)

(** ** What the index computation can raise *)

Lemma float_of_int_profile (z : Z) :
  (exists f, Py.float_of_int z = Ok f)
  \/ Py.float_of_int z = Raise OverflowError.
Proof.
  unfold Py.float_of_int.
  destruct (is_infinity _); [right | left; eexists]; reflexivity.
Qed.

Lemma truediv_profile (v : value) (d : Py.num) :
  (exists q, Py.truediv v d = Ok q)
  \/ Py.truediv v d = Raise TypeError
  \/ Py.truediv v d = Raise OverflowError
  \/ Py.truediv v d = Raise ZeroDivisionError.
Proof.
  unfold Py.truediv.
  destruct (Py.as_num v) as [[a|x]|], d as [b|y]; auto.
  - unfold Py.int_div. destruct (b =? 0)%Z; auto.
    destruct (is_infinity _); eauto.
  - destruct (float_of_int_profile a) as [[f ->]| ->]; cbn [bind]; auto.
    unfold Py.float_div. destruct (y =? 0)%float; eauto.
  - destruct (float_of_int_profile b) as [[f ->]| ->]; cbn [bind]; auto.
    unfold Py.float_div. destruct (f =? 0)%float; eauto.
  - unfold Py.float_div. destruct (y =? 0)%float; eauto.
Qed.


(** Whatever values the weight and the height are, computing the index
    returns a float or raises [TypeError] or [OverflowError]: the division
    by zero is always absorbed, and nothing else is raised.  A height that
    is not a number always raises [TypeError], and a weight that is not a
    number never yields an index. *)
Theorem bmi_raises_only (weight height : value) :
  ((exists b, Member._calculate_bmi weight height = Ok b)
   \/ Member._calculate_bmi weight height = Raise TypeError
   \/ Member._calculate_bmi weight height = Raise OverflowError)
  /\ (Py.as_num height = None ->
      Member._calculate_bmi weight height = Raise TypeError)
  /\ (Py.as_num weight = None ->
      Member._calculate_bmi weight height = Raise TypeError
      \/ Member._calculate_bmi weight height = Raise OverflowError).
Proof.
  unfold Member._calculate_bmi, Py.pow2.
  destruct (Py.as_num height) as [[z|f]|] eqn:Eh; cbn [bind].
  - destruct (truediv_profile weight (Py.NInt (z * z)))
      as [[q Hq]|[Hq|[Hq|Hq]]]; rewrite Hq; cbn [bind];
      (split; [eauto | split; [discriminate|]]);
      intros Hw; unfold Py.truediv in Hq; rewrite Hw in Hq;
      try discriminate Hq; auto.
  - unfold Py.float_pow2.
    destruct (is_infinity (f * f) && negb (is_infinity f)); cbn [bind];
      [split; [auto | split; [discriminate | auto]]|].
    destruct (truediv_profile weight (Py.NFloat (f * f)))
      as [[q Hq]|[Hq|[Hq|Hq]]]; rewrite Hq; cbn [bind];
      (split; [eauto | split; [discriminate|]]);
      intros Hw; unfold Py.truediv in Hq; rewrite Hw in Hq;
      try discriminate Hq; auto.
  - split; [auto | split; auto].
Qed.

Lemma bmi_raises_only_witness :
  Py.as_num (VStr "1.6") = None
  /\ Py.as_num VNone = None
  /\ Member._calculate_bmi (VInt 60) (VStr "1.6") = Raise TypeError
  /\ (Member._calculate_bmi VNone (VInt 0) = Raise TypeError
      \/ Member._calculate_bmi VNone (VInt 0) = Raise OverflowError).
Proof.
  split; [reflexivity|]. split; [reflexivity|].
  destruct (bmi_raises_only (VInt 60) (VStr "1.6")) as [_ [H _]].
  destruct (bmi_raises_only VNone (VInt 0)) as [_ [_ H']].
  split; [apply H; reflexivity | apply H'; reflexivity].
Defined.

(** ** What [from_dict] reads *)

(** [from_dict] looks at ten keys only: two documents that agree on id,
    name, age, gender, phone, weight, height, tier, join_date and
    attendance_log give the same result, whatever else they hold (a stored
    bmi, unknown keys) and in whatever order. *)
Theorem from_dict_reads_ten_keys (now : datetime)
    (d d' : list (string * value)) :
  (forall k, In k read_keys -> assoc k d = assoc k d') ->
  Member.from_dict now (VDict d) = Member.from_dict now (VDict d').
Proof.
  intros H. unfold Member.from_dict, getitem, get.
  rewrite (H "id"), (H "name"), (H "age"), (H "gender"), (H "phone"),
    (H "weight"), (H "height"), (H "tier"), (H "join_date"),
    (H "attendance_log") by (cbn; tauto).
  reflexivity.
Qed.

Lemma from_dict_reads_ten_keys_witness :
  (forall k, In k read_keys -> assoc k ann_doc = assoc k ann_doc_edited)
  /\ Member.from_dict noon (VDict ann_doc)
     = Member.from_dict noon (VDict ann_doc_edited).
Proof.
  assert (H : forall k, In k read_keys ->
                        assoc k ann_doc = assoc k ann_doc_edited).
  { intros k Hk. cbn in Hk.
    repeat (destruct Hk as [<-|Hk]; [reflexivity|]). contradiction. }
  split; [exact H|].
  apply (from_dict_reads_ten_keys noon ann_doc ann_doc_edited H).
Defined.

(** ** An induction principle for the mapping of reachable stores *)

Lemma load_values_members (P : list (value * Member.t) -> Prop) now :
  (forall data m ms,
     Member.from_dict now data = Ok m -> hashable (Member.id m) = true ->
     P ms -> P (setitem (Member.id m) m ms)) ->
  forall vs w r w',
    GymController.load_values now vs w = (r, w') ->
    P (members w) -> P (members w').
Proof.
  intros Hstep vs. induction vs as [|v vs IH]; intros w r w';
    cbn [GymController.load_values].
  - unfold ret. intros H; inversion H; subst; auto.
  - unfold mbind, lift.
    destruct (Member.from_dict now v) as [m|e] eqn:Em.
    + unfold GymController.store.
      destruct (hashable (Member.id m)) eqn:Eh.
      * unfold modify. intros H Hp. apply (IH _ _ _ H).
        cbn [members set_members]. eapply Hstep; eauto.
      * unfold raise. intros H; inversion H; subst; auto.
    + intros H; inversion H; subst; auto.
Qed.

(** A property of the mapping that holds when it is empty and is kept by
    the four ways the code changes it holds in every reachable store. *)
Lemma reachable_members_ind (P : list (value * Member.t) -> Prop) :
  P [] ->
  (forall now data m ms,
     Member.from_dict now data = Ok m -> hashable (Member.id m) = true ->
     P ms -> P (setitem (Member.id m) m ms)) ->
  (forall now m_id name age gender phone weight height tier m ms,
     Member.__init__ now (VStr m_id) (VStr name) (VInt age) (VStr gender)
       (VStr phone) (VFloat weight) (VFloat height) (VStr tier) = Ok m ->
     lookup (VStr m_id) ms = None ->
     P ms -> P (setitem (VStr m_id) m ms)) ->
  (forall m_id m ms,
     lookup (VStr m_id) ms = Some m -> P ms -> P (delitem (VStr m_id) ms)) ->
  (forall now m_id m m' ms,
     lookup (VStr m_id) ms = Some m -> Member.mark_attendance now m = Ok m' ->
     P ms -> P (setitem (VStr m_id) m' ms)) ->
  forall w, reachable w -> P (members w).
Proof.
  intros Hnil Hload Hcreate Hdelete Hlog w R.
  induction R as [now f w H
                 |now io m_id name age gender phone weight height tier w r w' R IH H
                 |io m_id w r w' R IH H
                 |now io m_id w r w' R IH H].
  - unfold GymController.__init__ in H.
    destruct (GymController._load_data now f _) as [[u|e] w0] eqn:E;
      [|discriminate].
    inversion H; subst w0; clear H.
    destruct f as [| | |data]; cbn in E.
    + inversion E; subst; exact Hnil.
    + inversion E; subst; exact Hnil.
    + inversion E; subst; exact Hnil.
    + unfold mbind, lift in E.
      destruct (GymController.values data) as [vs|e']; [|discriminate].
      destruct (GymController.load_values now vs _) as [[u'|e'] w1] eqn:EL;
        [|discriminate].
      apply (load_values_members P now (Hload now)) in EL; [|exact Hnil].
      unfold gets, modify in E. inversion E; subst. exact EL.
  - revert H. unfold GymController.create_member, mbind, gets.
    destruct (contains (VStr m_id) (members w)) eqn:Ec.
    + unfold raise. intros H; inversion H; subst; auto.
    + unfold lift.
      destruct (Member.__init__ now _ _ _ _ _ _ _ _) as [m|e] eqn:Em.
      * cbn [GymController.store hashable]. unfold modify. intros H.
        pose proof (save_data_members io
          (set_members (setitem (VStr m_id) m (members w)) w)) as Hs.
        rewrite H in Hs. cbn [snd members set_members] in Hs. rewrite Hs.
        eapply Hcreate; eauto. apply contains_false_lookup. exact Ec.
      * intros H; inversion H; subst; auto.
  - revert H. unfold GymController.delete_member, mbind, gets.
    destruct (contains (VStr m_id) (members w)) eqn:Ec.
    + unfold modify. intros H.
      pose proof (save_data_members io
        (set_members (delitem (VStr m_id) (members w)) w)) as Hs.
      rewrite H in Hs. cbn [snd members set_members] in Hs. rewrite Hs.
      apply contains_true_lookup in Ec. destruct Ec as [m Hl].
      eapply Hdelete; eauto.
    + unfold raise. intros H; inversion H; subst; auto.
  - revert H.
    unfold GymController.log_attendance, GymController.get_member, mbind, gets.
    destruct (lookup (VStr m_id) (members w)) as [m|] eqn:El.
    + unfold ret, lift.
      destruct (Member.mark_attendance now m) as [m'|e] eqn:Em.
      * unfold modify. intros H.
        pose proof (save_data_members io
          (set_members (setitem (VStr m_id) m' (members w)) w)) as Hs.
        pose proof (save_data_ok io
          (set_members (setitem (VStr m_id) m' (members w)) w)) as Ho.
        destruct (GymController.save_data io _) as [r0 w0].
        cbn [fst snd] in Hs, Ho. subst r0. inversion H; subst.
        rewrite Hs. cbn [members set_members]. eapply Hlog; eauto.
      * intros H; inversion H; subst; auto.
    + unfold raise. intros H; inversion H; subst; auto.
Qed.

(** ** Invariants of the mapping *)

Lemma setitem_Forall_snd {V : Type} (Q : V -> Prop) k v (d : list (value * V)) :
  Forall (fun e => Q (snd e)) d -> Q v ->
  Forall (fun e => Q (snd e)) (setitem k v d).
Proof.
  intros H Hv. induction d as [|[k0 v0] d IH]; cbn [setitem].
  - constructor; [exact Hv | constructor].
  - inversion H; subst.
    destruct (key_eqb k0 k); constructor; auto.
Qed.

Lemma setitem_Forall_fst {V : Type} (Q : value -> Prop) k v
    (d : list (value * V)) :
  Forall (fun e => Q (fst e)) d -> Q k ->
  Forall (fun e => Q (fst e)) (setitem k v d).
Proof.
  intros H Hk. induction d as [|[k0 v0] d IH]; cbn [setitem].
  - constructor; [exact Hk | constructor].
  - inversion H; subst.
    destruct (key_eqb k0 k); constructor; auto.
Qed.

Lemma delitem_Forall {V : Type} (R : value * V -> Prop) k d :
  Forall R d -> Forall R (delitem k d).
Proof.
  induction d as [|[k0 v0] d IH]; intros H; cbn [delitem]; [exact H|].
  inversion H; subst. destruct (key_eqb k0 k); [assumption|].
  constructor; auto.
Qed.

Lemma setitem_distinct k m ms :
  distinct_keys ms -> distinct_keys (setitem k m ms).
Proof.
  induction ms as [|[k0 m0] ms IH]; cbn [setitem distinct_keys].
  - intros _. split; [constructor | exact I].
  - intros [Hh Ht]. destruct (key_eqb k0 k) eqn:E; cbn [distinct_keys].
    + split; assumption.
    + split; [|apply IH; exact Ht].
      apply (setitem_Forall_fst (fun k' => key_eqb k0 k' = false)); assumption.
Qed.

Lemma delitem_distinct k ms :
  distinct_keys ms -> distinct_keys (delitem k ms).
Proof.
  induction ms as [|[k0 m0] ms IH]; cbn [delitem distinct_keys]; [auto|].
  intros [Hh Ht]. destruct (key_eqb k0 k); [exact Ht|].
  cbn [distinct_keys]. split; [apply delitem_Forall; exact Hh | auto].
Qed.

Lemma reachable_distinct_keys (w : world) :
  reachable w -> distinct_keys (members w).
Proof.
  apply (reachable_members_ind distinct_keys).
  - exact I.
  - intros. apply setitem_distinct; assumption.
  - intros. apply setitem_distinct; assumption.
  - intros. apply delitem_distinct; assumption.
  - intros. apply setitem_distinct; assumption.
Qed.

Lemma bob_checked_in_reachable : reachable bob_checked_in.
Proof.
  eapply reach_log; [|apply surjective_pairing].
  eapply reach_create; [|apply surjective_pairing].
  eapply (reach_init noon one_member_file). reflexivity.
Qed.

(** In every reachable store each member's stored bmi is the one its
    stored weight and height give: loading recomputes it, creating
    computes it, and no operation changes weight, height or bmi. *)
Theorem stored_bmi_consistent (w : world) :
  reachable w -> Forall (fun e => bmi_consistent (snd e)) (members w).
Proof.
  apply (reachable_members_ind
           (Forall (fun e => bmi_consistent (snd e)))).
  - constructor.
  - intros now data m ms Hm _ H.
    apply setitem_Forall_snd; [exact H|].
    exact (from_dict_bmi now data m Hm).
  - intros now m_id name age gender phone weight height tier m ms Hm _ H.
    apply setitem_Forall_snd; [exact H|].
    unfold bmi_consistent. unfold Member.__init__ in Hm.
    destruct (Member._calculate_bmi (VFloat weight) (VFloat height)) eqn:E;
      cbn [bind] in Hm; [|discriminate].
    inversion Hm; subst; cbn. exact E.
  - intros. apply delitem_Forall; assumption.
  - intros now m_id m m' ms Hl Hm H.
    apply setitem_Forall_snd; [exact H|].
    assert (Hc : bmi_consistent m).
    { clear - Hl H. induction ms as [|[k0 m0] ms IH]; [discriminate|].
      inversion H; subst. cbn [lookup] in Hl.
      destruct (key_eqb k0 (VStr m_id)); [inversion Hl; subst; assumption|].
      apply IH; assumption. }
    apply mark_attendance_keeps in Hm.
    destruct Hm as [Hw [Hh [Hb _]]].
    unfold bmi_consistent in *. rewrite Hw, Hh, Hb. exact Hc.
Qed.

Lemma stored_bmi_consistent_witness :
  reachable bob_checked_in
  /\ Forall (fun e => bmi_consistent (snd e)) (members bob_checked_in).
Proof.
  split; [exact bob_checked_in_reachable|].
  apply (stored_bmi_consistent bob_checked_in bob_checked_in_reachable).
Defined.

(** ** Creating members *)

Lemma init_new_member now m_id name age gender phone weight height tier :
  Member.__init__ now (VStr m_id) (VStr name) (VInt age) (VStr gender)
    (VStr phone) (VFloat weight) (VFloat height) (VStr tier)
  = if square_overflows height then Raise OverflowError
    else Ok (new_member now m_id name age gender phone weight height tier).
Proof.
  unfold Member.__init__, square_overflows, new_member.
  rewrite calculate_bmi_unfold.
  destruct (is_infinity (height * height) && negb (is_infinity height));
    [reflexivity|].
  destruct (height * height =? 0)%float; reflexivity.
Qed.




Lemma mutated_members io ms w : members (mutated io ms w) = ms.
Proof. unfold mutated. destruct io; reflexivity. Qed.



(** ** Deleting members *)

Lemma key_eqb_str (k : value) (s : string) :
  key_eqb k (VStr s) = true -> k = VStr s.
Proof.
  destruct k; cbn; try discriminate.
  intros H. apply String.eqb_eq in H. subst. reflexivity.
Qed.

Lemma lookup_none_Forall {V : Type} k (d : list (value * V)) :
  Forall (fun e => key_eqb (fst e) k = false) d -> lookup k d = None.
Proof.
  induction 1 as [|[k0 v0] d Hh Ht IH]; cbn [lookup]; [reflexivity|].
  cbn [fst] in Hh. rewrite Hh. exact IH.
Qed.

Lemma lookup_delitem_same s ms :
  distinct_keys ms -> lookup (VStr s) (delitem (VStr s) ms) = None.
Proof.
  induction ms as [|[k0 m0] ms IH]; cbn [delitem distinct_keys];
    [reflexivity|].
  intros [Hh Ht]. destruct (key_eqb k0 (VStr s)) eqn:E.
  - apply key_eqb_str in E. subst k0.
    apply lookup_none_Forall.
    eapply Forall_impl; [|exact Hh].
    intros [k1 m1]; cbn [fst]. intros H.
    destruct (key_eqb k1 (VStr s)) eqn:E1; [|reflexivity].
    apply key_eqb_str in E1. subst k1. rewrite key_eqb_str_refl in H.
    discriminate H.
  - cbn [lookup]. rewrite E. apply IH. exact Ht.
Qed.

Lemma lookup_delitem_other {V : Type} s other (d : list (value * V)) :
  other <> s -> lookup (VStr other) (delitem (VStr s) d) = lookup (VStr other) d.
Proof.
  intros Hne. induction d as [|[k0 v0] d IH]; cbn [delitem lookup];
    [reflexivity|].
  destruct (key_eqb k0 (VStr s)) eqn:E.
  - apply key_eqb_str in E. subst k0.
    replace (key_eqb (VStr s) (VStr other)) with false; [reflexivity|].
    symmetry. cbn. apply String.eqb_neq. congruence.
  - cbn [lookup]. destruct (key_eqb k0 (VStr other)); auto.
Qed.

Lemma delete_member_ok io m_id w :
  contains (VStr m_id) (members w) = true ->
  GymController.delete_member io m_id w
  = (Ok tt, mutated io (delitem (VStr m_id) (members w)) w).
Proof.
  intros Hc. unfold GymController.delete_member, mbind, gets.
  rewrite Hc. unfold modify. rewrite save_data_returns. reflexivity.
Qed.

Lemma with_bob_reachable : reachable with_bob.
Proof.
  eapply reach_create; [|apply surjective_pairing].
  eapply (reach_init noon one_member_file). reflexivity.
Qed.

(** After a successful deletion in a reachable store the id is gone:
    looking it up raises [MemberNotFoundError], the mapping has one entry
    less, every other id is found or missed exactly as before, and the id
    can be registered again. *)
Theorem delete_then_get (io : write_outcome) (m_id : string) (w w' : world) :
  reachable w ->
  GymController.delete_member io m_id w = (Ok tt, w') ->
  GymController.get_member m_id w'
    = (Raise (MemberNotFoundError ("Member " ++ m_id ++ " not found.")), w')
  /\ S (List.length (members w')) = List.length (members w)
  /\ (forall other, other <> m_id ->
        GymController.get_member other w'
        = (fst (GymController.get_member other w), w'))
  /\ contains (VStr m_id) (members w') = false.
Proof.
  intros R.
  destruct (contains (VStr m_id) (members w)) eqn:Ec.
  - rewrite (delete_member_ok io m_id w Ec).
    intros H; inversion H; subst w'; clear H.
    pose proof (reachable_distinct_keys w R) as Hd.
    assert (Hl : lookup (VStr m_id)
                   (members (mutated io (delitem (VStr m_id) (members w)) w))
                 = None).
    { rewrite mutated_members. apply lookup_delitem_same. exact Hd. }
    split; [|split; [|split]].
    + unfold GymController.get_member, mbind, gets. rewrite Hl. reflexivity.
    + rewrite mutated_members.
      apply contains_true_lookup in Ec. destruct Ec as [m Hm].
      apply (delitem_present _ _ m). exact Hm.
    + intros other Hne.
      unfold GymController.get_member, mbind, gets.
      rewrite !mutated_members, lookup_delitem_other by exact Hne.
      destruct (lookup (VStr other) (members w)); reflexivity.
    + apply contains_false_lookup. exact Hl.
  - unfold GymController.delete_member, mbind, gets. rewrite Ec.
    unfold raise. discriminate.
Qed.

Lemma delete_then_get_witness :
  reachable with_bob
  /\ GymController.delete_member WriteOk "M1" with_bob = (Ok tt, without_ann)
  /\ GymController.get_member "M1" without_ann
     = (Raise (MemberNotFoundError "Member M1 not found."), without_ann)
  /\ GymController.get_member "M2" without_ann = (Ok bob, without_ann).
Proof.
  split; [exact with_bob_reachable|]. split; [reflexivity|].
  destruct (delete_then_get WriteOk "M1" with_bob without_ann
              with_bob_reachable eq_refl) as [H1 [_ [H3 _]]].
  split; [exact H1|].
  rewrite (H3 "M2") by discriminate. reflexivity.
Defined.

(** ** Checking in *)

Lemma mark_attendance_with_log now m m' :
  Member.mark_attendance now m = Ok m' ->
  exists l, Member.attendance_log m = VList l
            /\ m' = with_log (VList (l ++ [VStr (strftime_seconds now)])) m.
Proof.
  unfold Member.mark_attendance.
  destruct (Member.attendance_log m) as [| | | | |l|] eqn:E; try discriminate.
  intros H; inversion H; subst. exists l. split; reflexivity.
Qed.

Lemma log_attendance_ok now io m_id w r w' :
  GymController.log_attendance now io m_id w = (Ok r, w') ->
  exists m l,
    lookup (VStr m_id) (members w) = Some m
    /\ Member.attendance_log m = VList l
    /\ r = Member.name m
    /\ w' = mutated io
              (setitem (VStr m_id)
                 (with_log (VList (l ++ [VStr (strftime_seconds now)])) m)
                 (members w)) w.
Proof.
  unfold GymController.log_attendance, GymController.get_member, mbind, gets.
  destruct (lookup (VStr m_id) (members w)) as [m|] eqn:El;
    [|unfold raise; discriminate].
  unfold ret, lift.
  destruct (Member.mark_attendance now m) as [m'|e] eqn:Em; [|discriminate].
  apply mark_attendance_with_log in Em. destruct Em as [l [Ha ->]].
  unfold modify. rewrite save_data_returns.
  intros H; inversion H; subst. exists m, l. repeat split; assumption.
Qed.

Lemma setitem_present_keys {V : Type} k (v v' : V) d :
  lookup k d = Some v -> map fst (setitem k v' d) = map fst d.
Proof.
  induction d as [|[k0 v0] d IH]; cbn [lookup setitem map fst];
    [discriminate|].
  destruct (key_eqb k0 k); cbn [map fst]; [reflexivity|].
  intros H. rewrite (IH H). reflexivity.
Qed.

Lemma setitem_present_map {V A : Type} (f : V -> A) k (v v' : V) d :
  lookup k d = Some v -> f v' = f v ->
  map f (map snd (setitem k v' d)) = map f (map snd d).
Proof.
  intros Hl Hf. induction d as [|[k0 v0] d IH]; cbn [lookup setitem map snd] in *;
    [discriminate|].
  destruct (key_eqb k0 k); cbn [map snd].
  - inversion Hl; subst. rewrite Hf. reflexivity.
  - rewrite (IH Hl). reflexivity.
Qed.

Lemma setitem_present_tier_count t k (m m' : Member.t) ms :
  lookup k ms = Some m -> Member.tier m' = Member.tier m ->
  GymController.tier_count t (setitem k m' ms) = GymController.tier_count t ms.
Proof.
  intros Hl Ht. unfold GymController.tier_count. f_equal.
  induction ms as [|[k0 m0] ms IH]; cbn [lookup setitem map snd filter] in *;
    [discriminate|].
  destruct (key_eqb k0 k); cbn [map snd filter].
  - inversion Hl; subst.
    assert (E : GymController.tier_is t m' = GymController.tier_is t m)
      by (unfold GymController.tier_is; rewrite Ht; reflexivity).
    rewrite E. destruct (GymController.tier_is t m); reflexivity.
  - destruct (GymController.tier_is t m0); cbn [List.length];
      rewrite (IH Hl); reflexivity.
Qed.

Lemma lookup_setitem_other {V : Type} s other (v : V) d :
  other <> s ->
  lookup (VStr other) (setitem (VStr s) v d) = lookup (VStr other) d.
Proof.
  intros Hne. induction d as [|[k0 v0] d IH]; cbn [setitem lookup].
  - replace (key_eqb (VStr s) (VStr other)) with false; [reflexivity|].
    symmetry. cbn. apply String.eqb_neq. congruence.
  - destruct (key_eqb k0 (VStr s)) eqn:E; cbn [lookup].
    + apply key_eqb_str in E. subst k0.
      replace (key_eqb (VStr s) (VStr other)) with false; [reflexivity|].
      symmetry. cbn. apply String.eqb_neq. congruence.
    + destruct (key_eqb k0 (VStr other)); auto.
Qed.

(** A successful check-in changes nothing but the log of the member checked
    in: the mapping keeps its ids in their order, every other id is looked
    up as before, and the analytics are the same as before. *)
Theorem check_in_keeps_roster (now : datetime) (io : write_outcome)
    (m_id : string) (w w' : world) (r : value) :
  GymController.log_attendance now io m_id w = (Ok r, w') ->
  map fst (members w') = map fst (members w)
  /\ (forall other, other <> m_id ->
        lookup (VStr other) (members w') = lookup (VStr other) (members w))
  /\ fst (GymController.get_analytics w') = fst (GymController.get_analytics w).
Proof.
  intros H. apply log_attendance_ok in H.
  destruct H as [m [l [Hl [Ha [_ ->]]]]].
  rewrite mutated_members.
  set (m' := with_log _ m).
  split; [apply (setitem_present_keys _ m); exact Hl|].
  split; [intros other Hne; apply lookup_setitem_other; exact Hne|].
  unfold GymController.get_analytics, mbind, gets, ret, lift.
  rewrite mutated_members.
  assert (Hn : List.length (setitem (VStr m_id) m' (members w))
               = List.length (members w)).
  { rewrite <- (length_map fst), (setitem_present_keys _ m) by exact Hl.
    apply length_map. }
  rewrite Hn.
  destruct (Nat.eqb (List.length (members w)) 0); [reflexivity|].
  rewrite (setitem_present_map Member.bmi _ m) by (exact Hl || reflexivity).
  destruct (Py.truediv _ _); [|reflexivity].
  rewrite !(setitem_present_tier_count _ _ m) by (exact Hl || reflexivity).
  reflexivity.
Qed.

Lemma check_in_keeps_roster_witness :
  GymController.log_attendance noon denied "M2" with_bob
  = (Ok (VStr "Bob"), bob_checked_in)
  /\ map fst (members bob_checked_in) = map fst (members with_bob)
  /\ fst (GymController.get_analytics bob_checked_in)
     = fst (GymController.get_analytics with_bob).
Proof.
  split; [reflexivity|].
  destruct (check_in_keeps_roster noon denied "M2" with_bob bob_checked_in
              (VStr "Bob") eq_refl) as [H1 [_ H3]].
  split; assumption.
Defined.

(** Checking in a member whose attendance log is not a list (a file can
    hold any JSON value there, and loading accepts it) raises
    [AttributeError] and leaves the store, the file and the console as they
    were. *)
Theorem check_in_needs_a_list (now : datetime) (io : write_outcome)
    (m_id : string) (w : world) (m : Member.t) :
  lookup (VStr m_id) (members w) = Some m ->
  (forall l, Member.attendance_log m <> VList l) ->
  GymController.log_attendance now io m_id w = (Raise AttributeError, w).
Proof.
  intros Hl Hn.
  unfold GymController.log_attendance, GymController.get_member, mbind, gets.
  rewrite Hl. unfold ret, lift, Member.mark_attendance.
  destruct (Member.attendance_log m) as [| | | | |l|]; try reflexivity.
  exfalso. apply (Hn l). reflexivity.
Qed.

Lemma check_in_needs_a_list_witness :
  GymController.__init__ noon null_log_file = Ok null_log_store
  /\ (exists m, lookup (VStr "M1") (members null_log_store) = Some m
                /\ Member.attendance_log m = VNone)
  /\ GymController.log_attendance noon WriteOk "M1" null_log_store
     = (Raise AttributeError, null_log_store).
Proof.
  split; [reflexivity|].
  destruct (lookup (VStr "M1") (members null_log_store)) as [m|] eqn:E;
    [|discriminate E].
  assert (Ha : Member.attendance_log m = VNone)
    by (inversion E; reflexivity).
  split; [exists m; split; [reflexivity | exact Ha]|].
  apply (check_in_needs_a_list noon WriteOk "M1" null_log_store m E).
  intros l. rewrite Ha. discriminate.
Defined.

(** ** Loading what was saved *)





(** ** What can escape the constructor of the controller *)






(** ** The console: reading numbers *)

Lemma printed_nil w : printed [] w = w.
Proof. unfold printed. rewrite app_nil_r. destruct w; reflexivity. Qed.

Lemma printed_print line lines w :
  printed lines (print line w) = printed (line :: lines) w.
Proof.
  unfold printed, print; cbn [members file stdout].
  rewrite <- app_assoc. reflexivity.
Qed.

(** [get_valid_input] answers every line that does not parse with
    "Invalid input" and returns the first one that does, leaving the lines
    after it to be read; when no line parses it ends with [EOFError], one
    answer printed per line typed. *)
Theorem get_valid_input_skips {A : Type} (B : builtins)
    (type_func : string -> option A) (bad : list string) (w : world) :
  Forall (fun line => type_func (strip B line) = None) bad ->
  (forall good a rest,
     type_func (strip B good) = Some a ->
     CLI.get_valid_input B type_func
       {| controller := w; keyboard := bad ++ good :: rest |}
     = (Returns a,
        {| controller :=
             printed (repeat "Invalid input" (List.length bad)) w;
           keyboard := rest |}))
  /\ CLI.get_valid_input B type_func {| controller := w; keyboard := bad |}
     = (Fails EOFError,
        {| controller := printed (repeat "Invalid input" (List.length bad)) w;
           keyboard := [] |}).
Proof.
  unfold CLI.get_valid_input; cbn [keyboard controller].
  intros Hbad. revert w.
  induction Hbad as [|line bad Hline Hbad IH]; intros w.
  - cbn [app List.length repeat CLI.get_valid_input_loop].
    rewrite printed_nil. split; [|reflexivity].
    intros good a rest Hgood. rewrite Hgood. reflexivity.
  - cbn [app List.length repeat CLI.get_valid_input_loop].
    rewrite Hline. destruct (IH (print "Invalid input" w)) as [IH1 IH2].
    rewrite <- printed_print. split; [|exact IH2].
    intros good a rest Hgood. apply IH1. exact Hgood.
Qed.

Lemma get_valid_input_skips_witness :
  Forall (fun line => parse_int typed_as_is (strip typed_as_is line) = None)
    ["thirty"; ""]
  /\ CLI.get_valid_input typed_as_is (parse_int typed_as_is)
       {| controller := with_bob; keyboard := ["thirty"; ""; "30"; "F"] |}
     = (Returns 30%Z,
        {| controller := printed ["Invalid input"; "Invalid input"] with_bob;
           keyboard := ["F"] |}).
Proof.
  assert (H : Forall (fun line => parse_int typed_as_is
                                    (strip typed_as_is line) = None)
                ["thirty"; ""]) by (repeat constructor).
  split; [exact H|].
  exact (proj1 (get_valid_input_skips typed_as_is (parse_int typed_as_is)
                  ["thirty"; ""] with_bob H) "30" 30%Z ["F"] eq_refl).
Defined.

(** ** The console: analytics *)

Lemma printed_app l1 l2 w : printed l2 (printed l1 w) = printed (l1 ++ l2) w.
Proof.
  unfold printed; cbn [members file stdout]. rewrite app_assoc. reflexivity.
Qed.

Lemma print_printed line w : print line w = printed [line] w.
Proof. reflexivity. Qed.

(** On an empty roster [view_analytics] prints the header, a total of 0, an
    average of 0 and the distribution heading, and then ends with
    [KeyError] for "tiers": the answer of [get_analytics] has no tier
    breakdown when there are no members, and the view subscripts it
    all the same. *)
Theorem view_analytics_empty_roster (B : builtins) (s : session) :
  members (controller s) = [] ->
  CLI.view_analytics B s
  = (Fails (Uncaught (KeyError "tiers")),
     {| controller :=
          printed [analytics_header; "Total Members: 0"; "Average BMI:   0";
                   "Membership Distribution:"] (controller s);
        keyboard := keyboard s |}).
Proof.
  destruct s as [[ms f out] kb]. cbn [controller members keyboard].
  intros ->.
  unfold CLI.view_analytics, CLI.header, say, call, io_bind, modify, lift.
  cbn. rewrite !print_printed, !printed_app. reflexivity.
Qed.

Lemma view_analytics_empty_roster_witness :
  members (controller {| controller := roster []; keyboard := ["7"] |}) = []
  /\ CLI.view_analytics typed_as_is
       {| controller := roster []; keyboard := ["7"] |}
     = (Fails (Uncaught (KeyError "tiers")),
        {| controller :=
             printed [analytics_header; "Total Members: 0";
                      "Average BMI:   0"; "Membership Distribution:"]
               (roster []);
           keyboard := ["7"] |}).
Proof.
  split; [reflexivity|].
  exact (view_analytics_empty_roster typed_as_is
           {| controller := roster []; keyboard := ["7"] |} eq_refl).
Defined.

Lemma get_analytics_nonempty (w : world) (n : float) :
  members w <> [] ->
  Py.float_of_int (Z.of_nat (List.length (members w))) = Ok n ->
  (n =? 0)%float = false ->
  GymController.get_analytics w
  = (Ok (VDict
           [("total", VInt (Z.of_nat (List.length (members w))));
            ("avg_bmi", VFloat (average_bmi (members w) n));
            ("tiers",
             VDict [("Basic", VInt (GymController.tier_count "Basic" (members w)));
                    ("Premium",
                     VInt (GymController.tier_count "Premium" (members w)));
                    ("VIP", VInt (GymController.tier_count "VIP" (members w)))])]),
     w).
Proof.
  intros Hne Hn Hz.
  unfold GymController.get_analytics, mbind, gets, ret, lift, average_bmi.
  destruct (members w) as [|e rest] eqn:E; [contradiction|].
  cbn [List.length Nat.eqb].
  unfold Py.truediv; cbn [Py.as_num].
  cbn [List.length] in Hn. rewrite Hn. cbn [bind].
  unfold Py.float_div. rewrite Hz. reflexivity.
Qed.

(** On a non-empty roster [view_analytics] returns after printing seven
    lines: the header, the number of members, the average, the distribution
    heading and one line per tier name with its count.  [n] is the member
    count as a float, which is not zero. *)
Theorem view_analytics_prints (B : builtins) (s : session) (n : float) :
  members (controller s) <> [] ->
  Py.float_of_int (Z.of_nat (List.length (members (controller s)))) = Ok n ->
  (n =? 0)%float = false ->
  CLI.view_analytics B s
  = (Returns tt,
     {| controller :=
          printed
            [analytics_header;
             "Total Members: "
             ++ int_str (Z.of_nat (List.length (members (controller s))));
             "Average BMI:   "
             ++ float_str B (average_bmi (members (controller s)) n);
             "Membership Distribution:";
             " - Basic: "
             ++ int_str (GymController.tier_count "Basic"
                           (members (controller s)));
             " - Premium: "
             ++ int_str (GymController.tier_count "Premium"
                           (members (controller s)));
             " - VIP: "
             ++ int_str (GymController.tier_count "VIP"
                           (members (controller s)))]
            (controller s);
        keyboard := keyboard s |}).
Proof.
  intros Hne Hn Hz.
  pose proof (get_analytics_nonempty
                (print analytics_header (controller s)) n Hne Hn Hz) as Hg.
  unfold CLI.view_analytics, CLI.header, say, call, io_bind, modify, lift.
  cbn [controller keyboard fst snd].
  replace (newline ++ "--- " ++ "Gym Analytics" ++ " ---")
    with analytics_header by reflexivity.
  rewrite Hg.
  cbn [getitem assoc String.eqb Ascii.eqb Bool.eqb controller keyboard
       CLI.items CLI.print_tiers py_str].
  unfold say, call, io_bind, modify, io_ret.
  cbn [controller keyboard].
  rewrite !print_printed, !printed_app. cbn [app members print].
  reflexivity.
Qed.

Lemma view_analytics_prints_witness :
  members (controller {| controller := four; keyboard := [] |}) <> []
  /\ Py.float_of_int
       (Z.of_nat (List.length
                    (members (controller {| controller := four;
                                            keyboard := [] |}))))
     = Ok 4%float
  /\ (4 =? 0)%float = false
  /\ CLI.view_analytics typed_as_is {| controller := four; keyboard := [] |}
     = (Returns tt,
        {| controller :=
             printed [analytics_header; "Total Members: 4";
                      "Average BMI:   <float>"; "Membership Distribution:";
                      " - Basic: 2"; " - Premium: 0"; " - VIP: 1"] four;
           keyboard := [] |}).
Proof.
  assert (H1 : members (controller {| controller := four; keyboard := [] |})
               <> []) by discriminate.
  split; [exact H1|]. split; [reflexivity|]. split; [reflexivity|].
  exact (view_analytics_prints typed_as_is
           {| controller := four; keyboard := [] |} 4 H1 eq_refl eq_refl).
Defined.

(** ** The console: deleting and checking in *)

Lemma delete_member_absent io m_id w :
  contains (VStr m_id) (members w) = false ->
  GymController.delete_member io m_id w
  = (Raise (MemberNotFoundError
              ("Cannot delete. ID " ++ m_id ++ " not found.")), w).
Proof.
  intros Hc. unfold GymController.delete_member, mbind, gets.
  rewrite Hc. reflexivity.
Qed.

(** [view_delete] reads an id and an answer, exactly as typed.  Unless the
    answer in lower case is "y" it changes and prints nothing.  With "y" it
    deletes the member, saves and prints "Record deleted.", or, when the id
    is not in the mapping, prints "ID not found." and changes nothing else.
    It always returns. *)
Theorem view_delete_does (B : builtins) (io : write_outcome) (w : world)
    (m_id answer : string) (rest : list string) :
  CLI.view_delete B io {| controller := w; keyboard := m_id :: answer :: rest |}
  = (Returns tt,
     {| controller :=
          if String.eqb (lower B answer) "y" then
            if contains (VStr m_id) (members w) then
              print "Record deleted."
                (mutated io (delitem (VStr m_id) (members w)) w)
            else print "ID not found." w
          else w;
        keyboard := rest |}).
Proof.
  unfold CLI.view_delete, io_bind, input. cbn [keyboard controller].
  destruct (String.eqb (lower B answer) "y"); [|reflexivity].
  unfold try_except, io_bind, call at 1. cbn [controller keyboard].
  destruct (contains (VStr m_id) (members w)) eqn:Ec.
  - rewrite (delete_member_ok io m_id w Ec). reflexivity.
  - rewrite (delete_member_absent io m_id w Ec). reflexivity.
Qed.

Lemma io_bind_run {A B : Type} (c : IO A) (k : A -> IO B) s o s' :
  c s = (o, s') ->
  io_bind c k s
  = match o with
    | Returns a => k a s'
    | Fails x => (Fails x, s')
    end.
Proof. intros H. unfold io_bind. rewrite H. reflexivity. Qed.

Lemma say_run line s :
  say line s
  = (Returns tt,
     {| controller := print line (controller s); keyboard := keyboard s |}).
Proof. reflexivity. Qed.

Lemma call_run {A : Type} (m : M A) s r w :
  m (controller s) = (r, w) ->
  call m s
  = (match r with
     | Ok a => Returns a
     | Raise e => Fails (Uncaught e)
     end,
     {| controller := w; keyboard := keyboard s |}).
Proof. intros H. unfold call. rewrite H. destruct r; reflexivity. Qed.

Lemma try_except_run {A : Type} (body : IO A) catches handler s o s' :
  body s = (o, s') ->
  try_except body catches handler s
  = match o with
    | Fails (Uncaught e) =>
        if catches e then handler e s' else (Fails (Uncaught e), s')
    | _ => (o, s')
    end.
Proof.
  intros H. unfold try_except. rewrite H.
  destruct o as [a|[e|]]; reflexivity.
Qed.

Lemma log_attendance_absent now io m_id w :
  contains (VStr m_id) (members w) = false ->
  GymController.log_attendance now io m_id w
  = (Raise (MemberNotFoundError ("Member " ++ m_id ++ " not found.")), w).
Proof.
  intros Hc. apply contains_false_lookup in Hc.
  unfold GymController.log_attendance, GymController.get_member, mbind, gets.
  rewrite Hc. reflexivity.
Qed.

Lemma log_attendance_run now io m_id w m l :
  lookup (VStr m_id) (members w) = Some m ->
  Member.attendance_log m = VList l ->
  GymController.log_attendance now io m_id w
  = (Ok (Member.name m),
     mutated io
       (setitem (VStr m_id)
          (with_log (VList (l ++ [VStr (strftime_seconds now)])) m)
          (members w)) w).
Proof.
  intros Hl Ha.
  unfold GymController.log_attendance, GymController.get_member, mbind, gets.
  rewrite Hl. unfold ret, lift, Member.mark_attendance. rewrite Ha.
  unfold modify. rewrite save_data_returns. reflexivity.
Qed.

Lemma log_attendance_not_list now io m_id w m :
  lookup (VStr m_id) (members w) = Some m ->
  (forall l, Member.attendance_log m <> VList l) ->
  GymController.log_attendance now io m_id w = (Raise AttributeError, w).
Proof.
  intros Hl Hn.
  unfold GymController.log_attendance, GymController.get_member, mbind, gets.
  rewrite Hl. unfold ret, lift, Member.mark_attendance.
  destruct (Member.attendance_log m) as [| | | | |l|]; try reflexivity.
  exfalso. apply (Hn l). reflexivity.
Qed.

Lemma view_check_in_run B now hm io w m_id rest :
  CLI.view_check_in B now hm io {| controller := w; keyboard := m_id :: rest |}
  = try_except
      (name <<- call (GymController.log_attendance now io m_id) ;;
       say (welcome B name hm))
      is_MemberNotFoundError
      (fun _ => say "ID not recognized.")
      {| controller := print check_in_header w; keyboard := rest |}.
Proof. reflexivity. Qed.

(** [view_check_in] looks up the line typed, as typed.  For an id that is
    not in the mapping it prints "ID not recognized.", returns, and leaves
    mapping and file alone.  For a member with a list as log it checks the
    member in, saves and greets by name.  For a member whose log is not a
    list the [AttributeError] escapes, after the header alone is printed. *)
Theorem view_check_in_does (B : builtins) (now : datetime) (hm : string)
    (io : write_outcome) (w : world) (m_id : string) (rest : list string) :
  (contains (VStr m_id) (members w) = false ->
   CLI.view_check_in B now hm io {| controller := w; keyboard := m_id :: rest |}
   = (Returns tt,
      {| controller := printed [check_in_header; "ID not recognized."] w;
         keyboard := rest |}))
  /\ (forall m l,
        lookup (VStr m_id) (members w) = Some m ->
        Member.attendance_log m = VList l ->
        CLI.view_check_in B now hm io
          {| controller := w; keyboard := m_id :: rest |}
        = (Returns tt,
           {| controller :=
                print (welcome B (Member.name m) hm)
                  (mutated io
                     (setitem (VStr m_id)
                        (with_log
                           (VList (l ++ [VStr (strftime_seconds now)])) m)
                        (members w))
                     (print check_in_header w));
              keyboard := rest |}))
  /\ (forall m,
        lookup (VStr m_id) (members w) = Some m ->
        (forall l, Member.attendance_log m <> VList l) ->
        CLI.view_check_in B now hm io
          {| controller := w; keyboard := m_id :: rest |}
        = (Fails (Uncaught AttributeError),
           {| controller := print check_in_header w; keyboard := rest |})).
Proof.
  rewrite view_check_in_run.
  set (w1 := print check_in_header w).
  split; [|split].
  - intros Hc.
    erewrite try_except_run;
      [|erewrite io_bind_run;
        [|apply call_run; cbn [controller];
          apply (log_attendance_absent now io m_id w1 Hc)];
        reflexivity].
    cbn [is_MemberNotFoundError]. rewrite say_run. cbn [controller keyboard].
    subst w1. rewrite !print_printed, printed_app. reflexivity.
  - intros m l Hl Ha.
    erewrite try_except_run;
      [|erewrite io_bind_run;
        [|apply call_run; cbn [controller];
          apply (log_attendance_run now io m_id w1 m l Hl Ha)];
        cbn iota; apply say_run].
    reflexivity.
  - intros m Hl Hn.
    erewrite try_except_run;
      [|erewrite io_bind_run;
        [|apply call_run; cbn [controller];
          apply (log_attendance_not_list now io m_id w1 m Hl Hn)];
        reflexivity].
    reflexivity.
Qed.

Lemma view_check_in_does_witness :
  contains (VStr "M2 ") (members with_bob) = false
  /\ CLI.view_check_in typed_as_is noon "12:00" WriteOk
       {| controller := with_bob; keyboard := ["M2 "; "7"] |}
     = (Returns tt,
        {| controller := printed [check_in_header; "ID not recognized."]
                           with_bob;
           keyboard := ["7"] |})
  /\ lookup (VStr "M2") (members with_bob) = Some bob
  /\ Member.attendance_log bob = VList []
  /\ fst (CLI.view_check_in typed_as_is noon "12:00" WriteOk
            {| controller := with_bob; keyboard := ["M2"; "7"] |})
     = Returns tt
  /\ stdout (controller
               (snd (CLI.view_check_in typed_as_is noon "12:00" WriteOk
                       {| controller := with_bob; keyboard := ["M2"; "7"] |})))
     = (stdout with_bob
        ++ [check_in_header; "Welcome back, Bob! Checked in at 12:00."])%list
  /\ (exists m,
        lookup (VStr "M1") (members null_log_store) = Some m
        /\ (forall l, Member.attendance_log m <> VList l))
  /\ CLI.view_check_in typed_as_is noon "12:00" WriteOk
       {| controller := null_log_store; keyboard := ["M1"; "7"] |}
     = (Fails (Uncaught AttributeError),
        {| controller := print check_in_header null_log_store;
           keyboard := ["7"] |}).
Proof.
  destruct (view_check_in_does typed_as_is noon "12:00" WriteOk with_bob
              "M2 " ["7"]) as [H1 _].
  destruct (view_check_in_does typed_as_is noon "12:00" WriteOk with_bob
              "M2" ["7"]) as [_ [H2 _]].
  split; [reflexivity|]. split; [exact (H1 eq_refl)|].
  split; [reflexivity|]. split; [reflexivity|].
  rewrite (H2 bob [] eq_refl eq_refl).
  split; [reflexivity|]. split; [reflexivity|].
  destruct (lookup (VStr "M1") (members null_log_store)) as [m|] eqn:E;
    [|discriminate E].
  assert (Hn : forall l, Member.attendance_log m <> VList l).
  { intros l. injection E as <-. discriminate. }
  split; [exists m; split; [reflexivity | exact Hn]|].
  destruct (view_check_in_does typed_as_is noon "12:00" WriteOk null_log_store
              "M1" ["7"]) as [_ [_ H3]].
  exact (H3 m E Hn).
Defined.

(** ** The console: registering *)

Lemma wp_bind {A B : Type} (c : IO A) (k : A -> IO B)
    (Q : outcome B -> session -> Prop) s :
  wp c (fun o s' =>
          match o with
          | Returns a => wp (k a) Q s'
          | Fails x => Q (Fails x) s'
          end) s ->
  wp (io_bind c k) Q s.
Proof.
  unfold wp, io_bind. destruct (c s) as [[a|x] s']; cbn [fst snd]; auto.
Qed.

Lemma wp_try {A : Type} (body : IO A) (catches : exn -> bool)
    (handler : exn -> IO A) (Q : outcome A -> session -> Prop) s :
  wp body (fun o s' =>
             match o with
             | Fails (Uncaught e) =>
                 if catches e then wp (handler e) Q s' else Q o s'
             | _ => Q o s'
             end) s ->
  wp (try_except body catches handler) Q s.
Proof.
  unfold wp, try_except.
  destruct (body s) as [[a|[e|]] s']; cbn [fst snd]; auto.
  destruct (catches e); auto.
Qed.

Lemma wp_say line (Q : outcome unit -> session -> Prop) s :
  Q (Returns tt)
    {| controller := print line (controller s); keyboard := keyboard s |} ->
  wp (say line) Q s.
Proof. intros H. exact H. Qed.

Lemma wp_input (Q : outcome string -> session -> Prop) s :
  Q (Fails EOFError) s ->
  (forall line rest,
      Q (Returns line) {| controller := controller s; keyboard := rest |}) ->
  wp input Q s.
Proof. unfold wp, input. destruct (keyboard s); cbn [fst snd]; auto. Qed.

Lemma wp_call {A : Type} (m : M A) (Q : outcome A -> session -> Prop) s :
  (forall a w, m (controller s) = (Ok a, w) ->
               Q (Returns a) {| controller := w; keyboard := keyboard s |}) ->
  (forall e w, m (controller s) = (Raise e, w) ->
               Q (Fails (Uncaught e))
                 {| controller := w; keyboard := keyboard s |}) ->
  wp (call m) Q s.
Proof.
  intros H1 H2. unfold wp, call.
  destruct (m (controller s)) as [[a|e] w] eqn:E; cbn [fst snd]; auto.
Qed.

Lemma same_store_refl w : same_store w w.
Proof. split; reflexivity. Qed.

Lemma same_store_trans w1 w2 w3 :
  same_store w1 w2 -> same_store w2 w3 -> same_store w1 w3.
Proof. intros [H1 H2] [H3 H4]. split; congruence. Qed.

Lemma same_store_print line w w' :
  same_store w w' -> same_store w (print line w').
Proof. intros [H1 H2]. split; assumption. Qed.

Lemma get_valid_input_loop_store {A : Type} B (type_func : string -> option A)
    error_msg lines :
  forall w,
    same_store w
      (controller
         (snd (CLI.get_valid_input_loop B type_func error_msg lines w)))
    /\ (fst (CLI.get_valid_input_loop B type_func error_msg lines w)
        = Fails EOFError
        \/ exists a,
             fst (CLI.get_valid_input_loop B type_func error_msg lines w)
             = Returns a).
Proof.
  induction lines as [|line rest IH]; intros w; cbn [CLI.get_valid_input_loop].
  - split; [apply same_store_refl | left; reflexivity].
  - destruct (type_func (strip B line)) as [a|].
    + split; [apply same_store_refl | right; exists a; reflexivity].
    + destruct (IH (print error_msg w)) as [[H1 H2] H3].
      split; [split; assumption | exact H3].
Qed.

Lemma wp_get_valid_input {A : Type} B (type_func : string -> option A)
    (Q : outcome A -> session -> Prop) s :
  (forall s', same_store (controller s) (controller s') ->
              Q (Fails EOFError) s') ->
  (forall a s', same_store (controller s) (controller s') ->
                Q (Returns a) s') ->
  wp (CLI.get_valid_input B type_func) Q s.
Proof.
  intros H1 H2. unfold wp, CLI.get_valid_input.
  destruct (get_valid_input_loop_store B type_func "Invalid input"
              (keyboard s) (controller s)) as [Hs [E|[a E]]];
    rewrite E; auto.
Qed.

Lemma create_member_duplicate now io m_id name age gender phone weight height
    tier w :
  contains (VStr m_id) (members w) = true ->
  GymController.create_member now io m_id name age gender phone weight height
    tier w
  = (Raise (DuplicateIdError ("ID " ++ m_id ++ " already in use.")), w).
Proof.
  intros Hc. unfold GymController.create_member, mbind, gets.
  rewrite Hc. reflexivity.
Qed.

Lemma create_member_overflow now io m_id name age gender phone weight height
    tier w :
  contains (VStr m_id) (members w) = false ->
  square_overflows height = true ->
  GymController.create_member now io m_id name age gender phone weight height
    tier w
  = (Raise OverflowError, w).
Proof.
  intros Hc Ho. unfold GymController.create_member, mbind, gets.
  rewrite Hc. unfold lift. rewrite init_new_member, Ho. reflexivity.
Qed.

Lemma create_member_fresh now io m_id name age gender phone weight height
    tier w :
  contains (VStr m_id) (members w) = false ->
  square_overflows height = false ->
  GymController.create_member now io m_id name age gender phone weight height
    tier w
  = (Ok tt,
     mutated io
       (members w
        ++ [(VStr m_id,
             new_member now m_id name age gender phone weight height tier)])
       w).
Proof.
  intros Hc Ho. unfold GymController.create_member, mbind, gets.
  rewrite Hc. unfold lift. rewrite init_new_member, Ho.
  cbn [GymController.store hashable]. unfold modify.
  rewrite save_data_returns. unfold mutated.
  rewrite setitem_absent by (apply contains_false_lookup; exact Hc).
  reflexivity.
Qed.

Lemma register_post_quiet s o s' :
  same_store (controller s) (controller s') ->
  o = Returns tt \/ o = Fails EOFError \/ o = Fails (Uncaught OverflowError) ->
  register_post s o s'.
Proof.
  intros Hs Ho. split; [exact Ho|]. split; [left; exact Hs|].
  intros _. exact Hs.
Qed.

Lemma chosen_tier_known B answer : CLI.known_tier (chosen_tier B answer) = true.
Proof.
  unfold chosen_tier.
  destruct (CLI.known_tier (capitalize B answer)) eqn:E; [exact E|reflexivity].
Qed.

(** However many lines are typed and whatever they are, [view_register]
    returns, or ends with [EOFError] when the lines run out, or with
    [OverflowError]: [DuplicateIdError] never escapes.  It leaves mapping
    and file as they were, or the mapping one member longer, under an id
    that was not in use and with one of the three tiers; the latter only
    when it returns. *)
Theorem view_register_outcomes (B : builtins) (now : datetime)
    (io : write_outcome) (s : session) :
  let r := CLI.view_register B now io s in
  (fst r = Returns tt \/ fst r = Fails EOFError
   \/ fst r = Fails (Uncaught OverflowError))
  /\ (same_store (controller s) (controller (snd r))
      \/ grown_by_one (controller s) (controller (snd r)))
  /\ (fst r <> Returns tt -> same_store (controller s) (controller (snd r))).
Proof.
  cbv zeta.
  change (wp (CLI.view_register B now io) (register_post s) s).
  unfold CLI.view_register, CLI.header.
  apply wp_bind, wp_say. apply wp_try.
  assert (H0 : same_store (controller s)
                 (print (newline ++ "--- " ++ "Register Member" ++ " ---")
                    (controller s)))
    by (apply same_store_print, same_store_refl).
  revert H0.
  generalize (print (newline ++ "--- " ++ "Register Member" ++ " ---")
                (controller s)).
  generalize (keyboard s). intros k0 w0 H0.
  apply wp_bind, wp_input;
    [apply register_post_quiet; [exact H0 | auto] | intros l_id k1].
  cbv beta zeta. cbn [controller keyboard].
  apply wp_bind, wp_input;
    [apply register_post_quiet; [exact H0 | auto] | intros l_name k2].
  cbv beta zeta. cbn [controller keyboard].
  apply wp_bind, wp_get_valid_input; cbn [controller];
    [intros s1 H1; apply register_post_quiet;
       [exact (same_store_trans _ _ _ H0 H1) | auto] |].
  intros age [w1 k3] H1. cbn [controller] in H1.
  pose proof (same_store_trans _ _ _ H0 H1) as H1'. clear H0 H1 w0.
  apply wp_bind, wp_input;
    [apply register_post_quiet; [exact H1' | auto] | intros l_gender k4].
  cbv beta zeta. cbn [controller keyboard].
  apply wp_bind, wp_input;
    [apply register_post_quiet; [exact H1' | auto] | intros l_phone k5].
  cbv beta zeta. cbn [controller keyboard].
  apply wp_bind, wp_get_valid_input; cbn [controller];
    [intros s2 H2; apply register_post_quiet;
       [exact (same_store_trans _ _ _ H1' H2) | auto] |].
  intros weight [w2 k6] H2. cbn [controller] in H2.
  pose proof (same_store_trans _ _ _ H1' H2) as H2'. clear H1' H2 w1.
  apply wp_bind, wp_get_valid_input; cbn [controller];
    [intros s3 H3; apply register_post_quiet;
       [exact (same_store_trans _ _ _ H2' H3) | auto] |].
  intros height [w3 k7] H3. cbn [controller] in H3.
  pose proof (same_store_trans _ _ _ H2' H3) as H3'. clear H2' H3 w2.
  apply wp_bind, wp_say. cbn [controller keyboard].
  apply (same_store_print
           (newline ++ "Membership Tiers: Basic, Premium, VIP")) in H3'.
  revert H3'.
  generalize (print (newline ++ "Membership Tiers: Basic, Premium, VIP") w3).
  intros w4 H4.
  apply wp_bind, wp_input;
    [apply register_post_quiet; [exact H4 | auto] | intros l_tier k8].
  cbv beta zeta. cbn [controller keyboard].
  fold (chosen_tier B l_tier).
  apply wp_bind, wp_call; cbn [controller keyboard].
  - intros [] w5 E. apply wp_say. cbn [controller keyboard].
    destruct (contains (VStr (strip B l_id)) (members w4)) eqn:Ec.
    { rewrite (create_member_duplicate _ _ _ _ _ _ _ _ _ _ _ Ec) in E.
      discriminate E. }
    destruct (square_overflows height) eqn:Eo.
    { rewrite (create_member_overflow _ _ _ _ _ _ _ _ _ _ _ Ec Eo) in E.
      discriminate E. }
    rewrite (create_member_fresh _ _ _ _ _ _ _ _ _ _ _ Ec Eo) in E.
    injection E as <-.
    split; [left; reflexivity|]. split; [|intros H; exfalso; apply H; reflexivity].
    right. destruct H4 as [Hm Hf].
    exists (strip B l_id),
      (new_member now (strip B l_id) (strip B l_name) age (upper B l_gender)
         l_phone weight height (chosen_tier B l_tier)),
      (chosen_tier B l_tier).
    cbn [controller print members]. rewrite mutated_members, <- Hm.
    repeat split; [exact Ec | apply chosen_tier_known].
  - intros e w5 E.
    destruct (contains (VStr (strip B l_id)) (members w4)) eqn:Ec.
    { rewrite (create_member_duplicate _ _ _ _ _ _ _ _ _ _ _ Ec) in E.
      injection E as <- <-. cbn [is_DuplicateIdError].
      apply wp_say. cbn [controller keyboard].
      apply register_post_quiet; [|auto].
      cbn [controller]. apply same_store_print. exact H4. }
    destruct (square_overflows height) eqn:Eo.
    { rewrite (create_member_overflow _ _ _ _ _ _ _ _ _ _ _ Ec Eo) in E.
      injection E as <- <-. cbn [is_DuplicateIdError].
      apply register_post_quiet; [exact H4 | auto]. }
    rewrite (create_member_fresh _ _ _ _ _ _ _ _ _ _ _ Ec Eo) in E.
    discriminate E.
Qed.






(** ** Restarting on a saved file *)








